(** * occwl: topological entity wrappers and the face adjacency graph

    A shallow embedding of [occwl/edge.py] and [occwl/vertex.py], the thin
    wrappers around the OpenCASCADE kernel, together with the face
    adjacency graph builder that the example script calls.

    Conventions.
    - The kernel type [Standard_Real] and Python's [float] are idealised
      as the real numbers [R].
    - Every call into the OpenCASCADE kernel is a field of the record
      [Kernel]; the kernel is pure and total.
    - A method of a wrapper class is a computation in the state and
      exception monad [M] over the wrapper object, so that what a method
      does to [self] is part of its meaning. *)

From Stdlib Require Import Reals Lra ZArith String.
From stdpp Require Import base option list gmap.

Local Open Scope Z_scope.

(** ** Python values and exceptions *)

(** The nine enumerators of the kernel's [GeomAbs_CurveType], and any other
    integer the binding may hand out for a tag it does not name. *)
Inductive GeomAbs_CurveType :=
  | GeomAbs_Line
  | GeomAbs_Circle
  | GeomAbs_Ellipse
  | GeomAbs_Hyperbola
  | GeomAbs_Parabola
  | GeomAbs_BezierCurve
  | GeomAbs_BSplineCurve
  | GeomAbs_OffsetCurve
  | GeomAbs_OtherCurve
  | GeomAbs_Unnamed (tag : Z).

Inductive TopAbs_Orientation :=
  | TopAbs_FORWARD
  | TopAbs_REVERSED
  | TopAbs_INTERNAL
  | TopAbs_EXTERNAL.

(** Continuity order between two surfaces, [GeomAbs_Shape]. *)
Inductive GeomAbs_Shape :=
  | GeomAbs_C0 | GeomAbs_G1 | GeomAbs_C1 | GeomAbs_G2
  | GeomAbs_C2 | GeomAbs_C3 | GeomAbs_CN.

(** The class of a Python object, as far as [isinstance] can tell in the
    constructors of the wrappers. *)
Inductive PyClass :=
  | TopoDS_Shape
  | TopoDS_Vertex
  | TopoDS_Edge
  | TopoDS_Wire
  | TopoDS_Face
  | TopoDS_Shell
  | TopoDS_Solid
  | PyOtherClass.

(** A Python object handed to a wrapper: its class and the kernel handle
    (shape and location) it stands for. Two objects are structurally
    identical when they are equal as values of this record. *)
Record PyObj := mkPyObj { py_class : PyClass; py_handle : positive }.

Global Instance PyClass_eq_dec : EqDecision PyClass.
Proof. solve_decision. Defined.

Global Instance PyObj_eq_dec : EqDecision PyObj.
Proof. solve_decision. Defined.

Global Instance TopAbs_Orientation_eq_dec : EqDecision TopAbs_Orientation.
Proof. solve_decision. Defined.

Definition isinstance (o : PyObj) (c : PyClass) : bool :=
  bool_decide (py_class o = c).

Inductive exn :=
  | AssertionError
  | TypeError
  | ValueError (msg : string) (arg : GeomAbs_CurveType)
  | NotImplementedError
  | Standard_Failure (msg : string)
  | TopologyError (shape : PyObj)
  | UnsupportedClassification (tag : GeomAbs_CurveType).

Inductive result (A : Type) :=
  | Ok (a : A)
  | Raise (e : exn).
Arguments Ok {A} a.
Arguments Raise {A} e.

Definition raises {A} (r : result A) : Prop :=
  match r with Ok _ => False | Raise _ => True end.

(** A numpy array, with its dtype: [np.array([0,0,0])] is an integer
    array, the conversion of a kernel point or vector a float array. *)
Inductive ndarray :=
  | IntArray (l : list Z)
  | FloatArray (l : list R).

(** Unary minus of numpy, elementwise. *)
Definition np_neg (a : ndarray) : ndarray :=
  match a with
  | IntArray l => IntArray (Z.opp <$> l)
  | FloatArray l => FloatArray (Ropp <$> l)
  end.

(** ** Kernel value classes *)

Record gp_Pnt := mk_gp_Pnt { Pnt_X : R; Pnt_Y : R; Pnt_Z : R }.
Record gp_Vec := mk_gp_Vec { Vec_X : R; Vec_Y : R; Vec_Z : R }.

(** [gp_Pnt()] and [gp_Vec()], the default constructed values. *)
Definition gp_Pnt_new : gp_Pnt := mk_gp_Pnt 0 0 0.
Definition gp_Vec_new : gp_Vec := mk_gp_Vec 0 0 0.

(** The magnitude of a vector and a vector divided by a scalar, in the
    mathematical sense. *)
Definition Magnitude (v : gp_Vec) : R :=
  sqrt (Vec_X v * Vec_X v + Vec_Y v * Vec_Y v + Vec_Z v * Vec_Z v).

Definition Divided (v : gp_Vec) (d : R) : gp_Vec :=
  mk_gp_Vec (Vec_X v / d) (Vec_Y v / d) (Vec_Z v / d).

(** A [Geom_Curve] handle, an object with the two evaluation methods the
    wrapper calls. [D1] fills the point and the derivative it is given. *)
Record Geom_Curve := mk_Geom_Curve {
  Value : R -> gp_Pnt;
  D1 : R -> gp_Pnt -> gp_Vec -> gp_Pnt * gp_Vec
}.

(** [occwl.geometry.interval.Interval] is imported by [edge.py]; a value
    is recorded by the constructor call that built it. *)
Inductive Interval :=
  | Interval_0
  | Interval_2 (umin umax : R).

(** The accessor of [BRepAdaptor_Curve] that [specific_curve] returned the
    result of, with the edge it was called on. *)
Inductive CurveAccessor :=
  | Line | Circle | Ellipse | Hyperbola | Parabola
  | BezierCurve | BSplineCurve | OffsetCurve.

Record SpecificCurve := mk_SpecificCurve {
  sc_accessor : CurveAccessor;
  sc_edge : PyObj
}.

(** ** The kernel

    Everything [edge.py] and [vertex.py] import from [OCC] and from
    [occwl.geometry], as the wrappers call it. *)
Record Kernel := mk_Kernel {
  (** [BRepAdaptor_Curve(e).Is3DCurve()] *)
  Is3DCurve : PyObj -> bool;
  (** [BRepAdaptor_Curve(e).GetType()] *)
  GetType : PyObj -> GeomAbs_CurveType;
  (** [BRepAdaptor_Curve(e).IsPeriodic()], [.IsRational()] *)
  IsPeriodic : PyObj -> bool;
  IsRational : PyObj -> bool;
  (** [BRep_Tool_Curve(e)], the triple (curve, umin, umax) *)
  BRep_Tool_Curve : PyObj -> Geom_Curve * R * R;
  (** [BRep_Tool_Continuity(e, f1, f2)] *)
  BRep_Tool_Continuity : PyObj -> PyObj -> PyObj -> GeomAbs_Shape;
  (** [BRep_Tool.Pnt(v)] *)
  BRep_Tool_Pnt : PyObj -> gp_Pnt;
  (** [GCPnts_AbscissaPoint().Length(BRepAdaptor_Curve(e), a, b, tol)] *)
  GCPnts_Length : PyObj -> R -> R -> R -> R;
  (** [ShapeAnalysis_Edge().IsSeam(e, f)] *)
  IsSeam : PyObj -> PyObj -> bool;
  (** [e.Orientation()], [e.Convex()], [e.Closed()], [e.__hash__()] *)
  Orientation : PyObj -> TopAbs_Orientation;
  Convex : PyObj -> bool;
  Closed : PyObj -> bool;
  HashCode : PyObj -> Z;
  (** [der.Normalize()], which may fail in the kernel *)
  Normalize : gp_Vec -> result gp_Vec;
  (** [geom_utils.gp_to_numpy], on points and on vectors *)
  gp_to_numpy_pnt : gp_Pnt -> ndarray;
  gp_to_numpy_vec : gp_Vec -> ndarray;
  (** the attributes [a] and [b] of an [Interval] *)
  Interval_a : Interval -> R;
  Interval_b : Interval -> R
}.

(** The same kernel with another orientation flag on every shape. *)
Definition with_Orientation (f : PyObj -> TopAbs_Orientation) (K : Kernel)
  : Kernel :=
  mk_Kernel (Is3DCurve K) (GetType K) (IsPeriodic K) (IsRational K)
    (BRep_Tool_Curve K) (BRep_Tool_Continuity K) (BRep_Tool_Pnt K)
    (GCPnts_Length K) (IsSeam K) f (Convex K) (Closed K) (HashCode K)
    (Normalize K) (gp_to_numpy_pnt K) (gp_to_numpy_vec K)
    (Interval_a K) (Interval_b K).

(** The same kernel with other coordinates stored in the vertices. *)
Definition with_Pnt (f : PyObj -> gp_Pnt) (K : Kernel) : Kernel :=
  mk_Kernel (Is3DCurve K) (GetType K) (IsPeriodic K) (IsRational K)
    (BRep_Tool_Curve K) (BRep_Tool_Continuity K) f
    (GCPnts_Length K) (IsSeam K) (Orientation K) (Convex K) (Closed K)
    (HashCode K) (Normalize K) (gp_to_numpy_pnt K) (gp_to_numpy_vec K)
    (Interval_a K) (Interval_b K).

(** ** Methods as computations over [self] *)

Definition M (S A : Type) : Type := S -> result A * S.

Definition ret {S A} (a : A) : M S A := fun s => (Ok a, s).

Definition throw {S A} (e : exn) : M S A := fun s => (Raise e, s).

Definition bind {S A B} (m : M S A) (k : A -> M S B) : M S B :=
  fun s =>
    match m s with
    | (Ok a, s') => k a s'
    | (Raise e, s') => (Raise e, s')
    end.

(** Read an attribute of [self]. *)
Definition getattr {S A} (f : S -> A) : M S A := fun s => (Ok (f s), s).

Notation "x <- m ;; k" := (bind m (fun x => k))
  (at level 100, m at next level, right associativity).

(** The value a method returns, and the object it leaves behind. *)
Definition returned {S A} (m : M S A) (s : S) : result A := fst (m s).
Definition self_after {S A} (m : M S A) (s : S) : S := snd (m s).

(** Let an exception of the kernel propagate. *)
Definition lift {S A} (r : result A) : M S A := fun s => (r, s).

(** ** [occwl.face.Face], as far as [edge.py] uses it *)

Record Face := mk_Face { _face : PyObj }.

Definition topods_face (f : Face) : PyObj := _face f.

(** ** [class Edge] *)

Record Edge := mk_Edge { _edge : PyObj }.

(** Index 0 of a triple. *)
Definition fst3 {A B C} (t : A * B * C) : A := fst (fst t).

(** The methods of the class. [Edge.__init__ o] is the expression
    [Edge(o)]: the assertion either lets the attribute be set or ends the
    construction with no object. *)
Module Edge.

Definition __init__ (topods_edge : PyObj) : result Edge :=
  if isinstance topods_edge TopoDS_Edge
  then Ok {| _edge := topods_edge |}
  else Raise AssertionError.

Section Methods.
Context (K : Kernel).

Definition topods_edge : M Edge PyObj := getattr _edge.

Definition hash : M Edge Z :=
  e <- topods_edge ;;
  ret (HashCode K e).

Definition has_curve : M Edge bool :=
  e <- topods_edge ;;
  ret (Is3DCurve K e).

Definition curve : M Edge Geom_Curve :=
  e <- getattr _edge ;;
  ret (fst3 (BRep_Tool_Curve K e)).

Definition reversed : M Edge bool :=
  e <- topods_edge ;;
  ret (bool_decide (Orientation K e = TopAbs_REVERSED)).

Definition point (u : R) : M Edge ndarray :=
  hc <- has_curve ;;
  if hc : bool then
    c <- curve ;;
    let pt := Value c u in
    ret (gp_to_numpy_pnt K pt)
  else ret (IntArray [0; 0; 0]).

Definition tangent (u : R) : M Edge ndarray :=
  hc <- has_curve ;;
  if hc : bool then
    let pt := gp_Pnt_new in
    let der := gp_Vec_new in
    c <- curve ;;
    let '(pt, der) := D1 c u pt der in
    der <- lift (Normalize K der) ;;
    let tangent := gp_to_numpy_vec K der in
    rev <- reversed ;;
    if rev : bool then ret (np_neg tangent) else ret tangent
  else ret (IntArray [0; 0; 0]).

Definition first_derivative (u : R) : M Edge ndarray :=
  hc <- has_curve ;;
  if hc : bool then
    let pt := gp_Pnt_new in
    let der := gp_Vec_new in
    c <- curve ;;
    let '(pt, der) := D1 c u pt der in
    ret (gp_to_numpy_vec K der)
  else ret (IntArray [0; 0; 0]).

Definition u_bounds : M Edge Interval :=
  hc <- has_curve ;;
  if negb hc then ret Interval_0
  else
    e <- topods_edge ;;
    let '(_, umin, umax) := BRep_Tool_Curve K e in
    ret (Interval_2 umin umax).

Definition length (tolerance : R) : M Edge R :=
  hc <- has_curve ;;
  if negb hc then ret 0%R
  else
    bounds <- u_bounds ;;
    e <- topods_edge ;;
    ret (GCPnts_Length K e (Interval_a K bounds) (Interval_b K bounds)
           tolerance).

Definition specific_curve : M Edge SpecificCurve :=
  e <- getattr _edge ;;
  let curv_type := GetType K e in
  match curv_type with
  | GeomAbs_Line => ret (mk_SpecificCurve Line e)
  | GeomAbs_Circle => ret (mk_SpecificCurve Circle e)
  | GeomAbs_Ellipse => ret (mk_SpecificCurve Ellipse e)
  | GeomAbs_Hyperbola => ret (mk_SpecificCurve Hyperbola e)
  | GeomAbs_Parabola => ret (mk_SpecificCurve Parabola e)
  | GeomAbs_BezierCurve => ret (mk_SpecificCurve BezierCurve e)
  | GeomAbs_BSplineCurve => ret (mk_SpecificCurve BSplineCurve e)
  | GeomAbs_OffsetCurve => ret (mk_SpecificCurve OffsetCurve e)
  | GeomAbs_OtherCurve | GeomAbs_Unnamed _ =>
      throw (ValueError "Unknown curve type: " curv_type)
  end.

Definition twin_edge : M Edge Edge := throw NotImplementedError.

Definition convex : M Edge bool :=
  e <- topods_edge ;;
  ret (Convex K e).

Definition closed : M Edge bool :=
  e <- topods_edge ;;
  ret (Closed K e).

Definition seam (face : Face) : M Edge bool :=
  e <- topods_edge ;;
  ret (IsSeam K e (topods_face face)).

Definition periodic : M Edge bool :=
  e <- topods_edge ;;
  ret (IsPeriodic K e).

Definition rational : M Edge bool :=
  e <- topods_edge ;;
  ret (IsRational K e).

Definition continuity (face1 face2 : Face) : M Edge GeomAbs_Shape :=
  e <- topods_edge ;;
  ret (BRep_Tool_Continuity K e (topods_face face1) (topods_face face2)).

Definition curve_type : M Edge string :=
  e <- getattr _edge ;;
  let curv_type := GetType K e in
  match curv_type with
  | GeomAbs_Line => ret "line"%string
  | GeomAbs_Circle => ret "circle"%string
  | GeomAbs_Ellipse => ret "ellipse"%string
  | GeomAbs_Hyperbola => ret "hyperbola"%string
  | GeomAbs_Parabola => ret "parabola"%string
  | GeomAbs_BezierCurve => ret "bezier"%string
  | GeomAbs_BSplineCurve => ret "bspline"%string
  | GeomAbs_OffsetCurve => ret "offset"%string
  | GeomAbs_OtherCurve => ret "other"%string
  | GeomAbs_Unnamed _ => ret "unknown"%string
  end.

End Methods.

End Edge.

(** ** [class Vertex] *)

Record Vertex := mk_Vertex { _vertex : PyObj }.

Module Vertex.

Definition __init__ (topods_vertex : PyObj) : result Vertex :=
  if isinstance topods_vertex TopoDS_Vertex
  then Ok {| _vertex := topods_vertex |}
  else Raise AssertionError.

Section Methods.
Context (K : Kernel).

Definition topods_entity : M Vertex PyObj := getattr _vertex.

Definition topods_vertex : M Vertex PyObj := getattr _vertex.

Definition __hash__ : M Vertex Z :=
  v <- topods_vertex ;;
  ret (HashCode K v).

(** [self == other], for [other] a [Vertex] as well; [other] is read
    through its own [topods_vertex]. *)
Definition __eq__ (other : Vertex) : M Vertex bool :=
  v <- topods_vertex ;;
  match topods_vertex other with
  | (Ok w, _) => ret (bool_decide (HashCode K v = HashCode K w))
  | (Raise e, _) => throw e
  end.

Definition point : M Vertex (R * R * R) :=
  v <- topods_vertex ;;
  let pt := BRep_Tool_Pnt K v in
  ret (Pnt_X pt, Pnt_Y pt, Pnt_Z pt).

End Methods.

End Vertex.

(** ** A concrete kernel

    A handful of shapes on which the definitions can be evaluated: a
    straight edge along (3,4,0) in both orientations, the degenerate edge
    at the pole of a sphere, edges whose curves carry the tags
    [GeomAbs_OtherCurve] and 42, and two vertices. *)
Module Demo.

Definition segment : Geom_Curve :=
  {| Value := fun u => mk_gp_Pnt (3 * u) (4 * u) 0;
     D1 := fun u _ _ => (mk_gp_Pnt (3 * u) (4 * u) 0, mk_gp_Vec 3 4 0) |}.

Definition null_curve : Geom_Curve :=
  {| Value := fun _ => gp_Pnt_new;
     D1 := fun _ pt der => (pt, der) |}.

Definition straight : PyObj := mkPyObj TopoDS_Edge 1.
Definition straight_reversed : PyObj := mkPyObj TopoDS_Edge 2.
Definition pole : PyObj := mkPyObj TopoDS_Edge 3.
Definition other_curve : PyObj := mkPyObj TopoDS_Edge 4.
Definition unnamed_curve : PyObj := mkPyObj TopoDS_Edge 5.
Definition corner : PyObj := mkPyObj TopoDS_Vertex 6.
Definition far_corner : PyObj := mkPyObj TopoDS_Vertex 2147483653.
Definition side : PyObj := mkPyObj TopoDS_Face 7.

Definition kernel : Kernel :=
  {| Is3DCurve := fun o => negb (bool_decide (o = pole));
     GetType := fun o =>
       if bool_decide (o = other_curve) then GeomAbs_OtherCurve
       else if bool_decide (o = unnamed_curve) then GeomAbs_Unnamed 42
       else GeomAbs_Line;
     IsPeriodic := fun _ => false;
     IsRational := fun _ => false;
     BRep_Tool_Curve := fun o =>
       if bool_decide (o = pole) then (null_curve, 0%R, 0%R)
       else (segment, 0%R, 1%R);
     BRep_Tool_Continuity := fun _ _ _ => GeomAbs_C0;
     BRep_Tool_Pnt := fun _ => mk_gp_Pnt 0 0 0;
     GCPnts_Length := fun _ a b _ => (5 * (b - a))%R;
     IsSeam := fun _ _ => false;
     Orientation := fun o =>
       if bool_decide (o = straight_reversed) then TopAbs_REVERSED
       else TopAbs_FORWARD;
     Convex := fun _ => false;
     Closed := fun _ => false;
     HashCode := fun o => Z.pos (py_handle o) mod 2147483647 + 1;
     Normalize := fun v => Ok (Divided v (Magnitude v));
     gp_to_numpy_pnt := fun p => FloatArray [Pnt_X p; Pnt_Y p; Pnt_Z p];
     gp_to_numpy_vec := fun v => FloatArray [Vec_X v; Vec_Y v; Vec_Z v];
     Interval_a := fun i =>
       match i with Interval_0 => 0%R | Interval_2 a _ => a end;
     Interval_b := fun i =>
       match i with Interval_0 => 0%R | Interval_2 _ b => b end |}.

(** The length below which the kernel takes a vector for null. *)
Definition Resolution : R := 1e-300.

(** A curve that creeps along the x axis at the speed [Resolution]. *)
Definition creeping : Geom_Curve :=
  {| Value := fun u => mk_gp_Pnt (Resolution * u) 0 0;
     D1 := fun u _ _ =>
       (mk_gp_Pnt (Resolution * u) 0 0, mk_gp_Vec Resolution 0 0) |}.

(** A kernel whose edges all lie on the creeping curve and whose
    [Normalize] fails on a vector no longer than [Resolution]. *)
Definition strict_kernel : Kernel :=
  mk_Kernel (fun _ => true) (GetType kernel) (IsPeriodic kernel)
    (IsRational kernel) (fun _ => (creeping, 0%R, 1%R))
    (BRep_Tool_Continuity kernel) (BRep_Tool_Pnt kernel)
    (GCPnts_Length kernel) (IsSeam kernel) (Orientation kernel)
    (Convex kernel) (Closed kernel) (HashCode kernel)
    (fun v =>
       if Rle_dec (Magnitude v) Resolution
       then Raise (Standard_Failure "gp_Vec::Normalize() - vector has zero norm")
       else Ok (Divided v (Magnitude v)))
    (gp_to_numpy_pnt kernel) (gp_to_numpy_vec kernel)
    (Interval_a kernel) (Interval_b kernel).

End Demo.

(** ** What the specification says of the curve classification *)

(** The tags of the tagged variant of [specific_curve()], in the
    specification's words. *)
Definition spec_curve_tags : list GeomAbs_CurveType :=
  [GeomAbs_Line; GeomAbs_Circle; GeomAbs_Ellipse; GeomAbs_Hyperbola;
   GeomAbs_Parabola; GeomAbs_BezierCurve; GeomAbs_BSplineCurve;
   GeomAbs_OffsetCurve; GeomAbs_OtherCurve].

(** In the specification's words: [specific_curve()] returns a geometry
    for each tag of the variant and signals an error exactly for the
    others. *)
Definition specific_curve_spec (K : Kernel) (e : Edge) : Prop :=
  (GetType K (_edge e) ∈ spec_curve_tags ->
   exists g, returned (Edge.specific_curve K) e = Ok g) /\
  (raises (returned (Edge.specific_curve K) e) <->
   GetType K (_edge e) ∉ spec_curve_tags).

(** In the specification's words: [curve_type()] raises on a tag it does
    not recognise. *)
Definition curve_type_spec (K : Kernel) (e : Edge) : Prop :=
  GetType K (_edge e) ∉ spec_curve_tags ->
  raises (returned (Edge.curve_type K) e).

(** In the specification's words: two vertices compare equal exactly when
    their wrapped handles are structurally identical. *)
Definition vertex_eq_spec (K : Kernel) (v w : Vertex) : Prop :=
  returned (Vertex.__eq__ K w) v = Ok true <-> _vertex v = _vertex w.

(** The tag each accessor of the adaptor belongs to. *)
Definition accessor_tag (a : CurveAccessor) : GeomAbs_CurveType :=
  match a with
  | Line => GeomAbs_Line
  | Circle => GeomAbs_Circle
  | Ellipse => GeomAbs_Ellipse
  | Hyperbola => GeomAbs_Hyperbola
  | Parabola => GeomAbs_Parabola
  | BezierCurve => GeomAbs_BezierCurve
  | BSplineCurve => GeomAbs_BSplineCurve
  | OffsetCurve => GeomAbs_OffsetCurve
  end.

Definition accessors : list CurveAccessor :=
  [Line; Circle; Ellipse; Hyperbola; Parabola; BezierCurve; BSplineCurve;
   OffsetCurve].

(** ** Sequences of queries on one wrapper *)

Inductive EdgeQuery :=
  | Q_topods_edge
  | Q_hash
  | Q_point (u : R)
  | Q_tangent (u : R)
  | Q_first_derivative (u : R)
  | Q_length (tolerance : R)
  | Q_curve
  | Q_specific_curve
  | Q_has_curve
  | Q_u_bounds
  | Q_twin_edge
  | Q_convex
  | Q_closed
  | Q_seam (face : Face)
  | Q_periodic
  | Q_rational
  | Q_continuity (face1 face2 : Face)
  | Q_reversed
  | Q_curve_type.

Inductive VertexQuery :=
  | Q_topods_entity
  | Q_topods_vertex
  | Q_Vertex_hash
  | Q_Vertex_eq (other : Vertex)
  | Q_Vertex_point.

(** A call whose value the caller drops, and whose exception the caller
    catches: what remains is what the call did to the object. *)
Definition call {S A} (m : M S A) (s : S) : S := self_after m s.

Definition Edge_call (K : Kernel) (q : EdgeQuery) : Edge -> Edge :=
  match q with
  | Q_topods_edge => call Edge.topods_edge
  | Q_hash => call (Edge.hash K)
  | Q_point u => call (Edge.point K u)
  | Q_tangent u => call (Edge.tangent K u)
  | Q_first_derivative u => call (Edge.first_derivative K u)
  | Q_length tolerance => call (Edge.length K tolerance)
  | Q_curve => call (Edge.curve K)
  | Q_specific_curve => call (Edge.specific_curve K)
  | Q_has_curve => call (Edge.has_curve K)
  | Q_u_bounds => call (Edge.u_bounds K)
  | Q_twin_edge => call Edge.twin_edge
  | Q_convex => call (Edge.convex K)
  | Q_closed => call (Edge.closed K)
  | Q_seam face => call (Edge.seam K face)
  | Q_periodic => call (Edge.periodic K)
  | Q_rational => call (Edge.rational K)
  | Q_continuity face1 face2 => call (Edge.continuity K face1 face2)
  | Q_reversed => call (Edge.reversed K)
  | Q_curve_type => call (Edge.curve_type K)
  end.

Definition Vertex_call (K : Kernel) (q : VertexQuery) : Vertex -> Vertex :=
  match q with
  | Q_topods_entity => call Vertex.topods_entity
  | Q_topods_vertex => call Vertex.topods_vertex
  | Q_Vertex_hash => call (Vertex.__hash__ K)
  | Q_Vertex_eq other => call (Vertex.__eq__ K other)
  | Q_Vertex_point => call (Vertex.point K)
  end.

Definition Edge_calls (K : Kernel) (qs : list EdgeQuery) (e : Edge) : Edge :=
  foldl (fun s q => Edge_call K q s) e qs.

Definition Vertex_calls (K : Kernel) (qs : list VertexQuery) (v : Vertex)
  : Vertex :=
  foldl (fun s q => Vertex_call K q s) v qs.

(** ** Euclidean norm and scaling *)

Definition np_norm (l : list R) : R :=
  sqrt (foldr (fun x acc => x * x + acc)%R 0%R l).

Definition np_div (l : list R) (d : R) : list R :=
  (fun x => x / d)%R <$> l.

(** The derivative the kernel reports on the curve of an edge. *)
Definition derivative_at (K : Kernel) (e : Edge) (u : R) : gp_Vec :=
  snd (D1 (fst3 (BRep_Tool_Curve K (_edge e))) u gp_Pnt_new gp_Vec_new).

(** In the specification's words: on an edge with a 3D curve, where the
    first derivative is not zero, [tangent(u)] is [first_derivative(u)]
    divided by its norm, negated exactly when [reversed()] is true. *)
Definition tangent_spec (K : Kernel) (e : Edge) (u : R) : Prop :=
  returned (Edge.has_curve K) e = Ok true ->
  derivative_at K e u <> mk_gp_Vec 0 0 0 ->
  exists d rev,
    returned (Edge.first_derivative K u) e = Ok (FloatArray d) /\
    returned (Edge.reversed K) e = Ok rev /\
    returned (Edge.tangent K u) e =
      Ok (if rev : bool then np_neg (FloatArray (np_div d (np_norm d)))
          else FloatArray (np_div d (np_norm d))).

(** ** The face adjacency graph *)

Global Instance Face_eq_dec : EqDecision Face.
Proof. solve_decision. Defined.

Global Instance Edge_eq_dec : EqDecision Edge.
Proof. solve_decision. Defined.

(** A solid as the builder sees it: its faces in the traversal order of the
    kernel, and for each face its boundary loops of edges. Two uses of an
    edge are uses of the same topological edge when the wrappers hold the
    same handle. *)
Record Solid := mk_Solid {
  faces : list Face;
  loops : Face -> list (list Edge)
}.

(** The number of faces of a solid: each face counts once, however often
    the traversal meets it. *)
Definition num_faces (S : Solid) : nat :=
  List.length (remove_dups (faces S)).

Record GraphNode := mk_GraphNode { node_face : Face; node_index : nat }.

Record EdgeAttrs := mk_EdgeAttrs {
  attr_convex : bool;
  attr_continuity : GeomAbs_Shape;
  attr_curve_type : string;
  attr_seam : bool;
  attr_closed : bool;
  attr_periodic : bool;
  attr_rational : bool
}.

Record GraphEdge := mk_GraphEdge {
  edge_source : nat;
  edge_target : nat;
  edge_entity : Edge;
  edge_attrs : EdgeAttrs
}.

Record Graph := mk_Graph {
  nodes : list GraphNode;
  edges : list GraphEdge
}.

(** What the builder does with an edge that more than two faces share. *)
Inductive NonManifoldPolicy := Reject | ExpandPairwise.

Global Instance NonManifoldPolicy_eq_dec : EqDecision NonManifoldPolicy.
Proof. solve_decision. Defined.

Definition res_bind {A B} (r : result A) (k : A -> result B) : result B :=
  match r with
  | Ok a => k a
  | Raise e => Raise e
  end.

Notation "x <~ r ;; k" := (res_bind r (fun x => k))
  (at level 100, r at next level, right associativity).

Fixpoint res_mapM {A B} (f : A -> result B) (l : list A) : result (list B) :=
  match l with
  | [] => Ok []
  | x :: l =>
      y <~ f x ;;
      ys <~ res_mapM f l ;;
      Ok (y :: ys)
  end.

Definition visited (f : Face) (ns : list GraphNode) : bool :=
  bool_decide (f ∈ node_face <$> ns).

(** Modelled from the spec: [occwl.graph.face_adjacency] is imported by the
    example script and is not among the sources. Step 1 of the builder:
    the faces are taken in the order of the kernel, and a face gets the
    next unused index, from 0, on its first visit. *)
Fixpoint assign_indices (fs : list Face) (next : nat) (ns : list GraphNode)
  : list GraphNode :=
  match fs with
  | [] => ns
  | f :: fs =>
      if visited f ns then assign_indices fs next ns
      else assign_indices fs (S next) (ns ++ [mk_GraphNode f next])
  end.

(** Modelled from the spec: steps 2 and 3, the uses of edges by the faces,
    across all loops, and the mates of an edge, one for each use. *)
Definition edge_uses (S : Solid) (ns : list GraphNode)
  : list (Edge * GraphNode) :=
  n ← ns; (fun e => (e, n)) <$> concat (loops S (node_face n)).

Definition mates (uses : list (Edge * GraphNode)) (e : Edge)
  : list GraphNode :=
  snd <$> filter (fun p => fst p = e) uses.

(** The edges in the order of their first use. *)
Fixpoint first_uses (es seen : list Edge) : list Edge :=
  match es with
  | [] => seen
  | e :: es =>
      if bool_decide (e ∈ seen) then first_uses es seen
      else first_uses es (seen ++ [e])
  end.

Fixpoint pairs {A} (l : list A) : list (A * A) :=
  match l with
  | [] => []
  | x :: l => ((fun y => (x, y)) <$> l) ++ pairs l
  end.

(** Modelled from the spec: the curve-type tag attached to a graph edge.
    A tag that is none of the nine named ones raises the named error of
    the taxonomy, which carries the tag; no default stands in for it. *)
Definition attach_curve_type (K : Kernel) (e : Edge) : result string :=
  match GetType K (_edge e) with
  | GeomAbs_Unnamed tag =>
      Raise (UnsupportedClassification (GeomAbs_Unnamed tag))
  | _ => returned (Edge.curve_type K) e
  end.

(** Modelled from the spec: step 5, the attributes of a graph edge, each
    read once from the edge through the methods of the wrapper. *)
Definition derive_attrs (K : Kernel) (e : Edge) (f1 f2 : Face)
  : result EdgeAttrs :=
  cv <~ returned (Edge.convex K) e ;;
  ct <~ returned (Edge.continuity K f1 f2) e ;;
  ty <~ attach_curve_type K e ;;
  sm <~ returned (Edge.seam K f1) e ;;
  cl <~ returned (Edge.closed K) e ;;
  pe <~ returned (Edge.periodic K) e ;;
  ra <~ returned (Edge.rational K) e ;;
  Ok (mk_EdgeAttrs cv ct ty sm cl pe ra).

(** Modelled from the spec: step 4 for one pair of mates. Two distinct
    faces give a graph edge; the same face twice gives a self loop when
    [self_loops] is set and nothing otherwise. *)
Definition emit (K : Kernel) (self_loops : bool) (e : Edge)
    (p : GraphNode * GraphNode) : result (list GraphEdge) :=
  let '(n1, n2) := p in
  if bool_decide (node_face n1 = node_face n2) && negb self_loops
  then Ok []
  else
    a <~ derive_attrs K e (node_face n1) (node_face n2) ;;
    Ok [mk_GraphEdge (node_index n1) (node_index n2) e a].

(** Modelled from the spec: steps 4 and 6 for one topological edge. An
    edge with fewer than two mates gives nothing; one with more than two
    is rejected or expanded into all pairs, as the policy says. *)
Definition edges_of (K : Kernel) (policy : NonManifoldPolicy)
    (self_loops : bool) (uses : list (Edge * GraphNode)) (e : Edge)
  : result (list GraphEdge) :=
  let ms := mates uses e in
  if bool_decide (List.length ms ≤ 2)%nat
     || bool_decide (policy = ExpandPairwise)
  then
    ess <~ res_mapM (emit K self_loops e) (pairs ms) ;;
    Ok (concat ess)
  else Raise (TopologyError (_edge e)).

(** Modelled from the spec: [face_adjacency(solid, self_loops)], the
    builder of section 4.4 as a whole; [occwl.graph] is not among the
    sources. The nodes are fixed first, then every topological edge is
    turned into its graph edges. *)
Definition face_adjacency (K : Kernel) (policy : NonManifoldPolicy)
    (S : Solid) (self_loops : bool) : result Graph :=
  let ns := assign_indices (faces S) 0 [] in
  let uses := edge_uses S ns in
  ess <~ res_mapM (edges_of K policy self_loops uses)
           (first_uses (fst <$> uses) []) ;;
  Ok (mk_Graph ns (concat ess)).

(** ** Construction and the assertions of the interpreter

    [assert c] raises [AssertionError] when [c] is false and the constant
    [__debug__] of the interpreter is true, which it is unless Python is
    started with [-O]; with [-O] the statement is dropped. *)
Definition py_assert (__debug__ c : bool) : result unit :=
  if __debug__ then (if c then Ok tt else Raise AssertionError) else Ok tt.

(** [Edge(topods_edge)] and [Vertex(topods_vertex)] under either setting
    of [__debug__]. *)
Definition Edge_new (__debug__ : bool) (topods_edge : PyObj) : result Edge :=
  _ <~ py_assert __debug__ (isinstance topods_edge TopoDS_Edge) ;;
  Ok {| _edge := topods_edge |}.

Definition Vertex_new (__debug__ : bool) (topods_vertex : PyObj)
  : result Vertex :=
  _ <~ py_assert __debug__ (isinstance topods_vertex TopoDS_Vertex) ;;
  Ok {| _vertex := topods_vertex |}.

(** In the specification's words: a wrapper built from a handle of the
    wrong kind fails at construction with a type error. *)
Definition construction_spec (__debug__ : bool) (o : PyObj) : Prop :=
  (isinstance o TopoDS_Edge = false -> Edge_new __debug__ o = Raise TypeError) /\
  (isinstance o TopoDS_Vertex = false ->
   Vertex_new __debug__ o = Raise TypeError).

(** ** A box and a sphere

    The rectangular box has six faces; two faces that are not opposite
    share one edge, twelve edges in all, and every face has one loop of
    four edges. The sphere has one face, whose loop runs along the seam
    twice and through the two degenerate edges at the poles. *)
Module DemoSolids.

Definition box_face (i : positive) : Face := mk_Face (mkPyObj TopoDS_Face i).

Definition box_edge (i j : positive) : Edge :=
  mk_Edge (mkPyObj TopoDS_Edge (100 + 10 * i + j)).

(** Faces 1 and 2, 3 and 4, 5 and 6 are opposite. *)
Definition box_loops (f : Face) : list (list Edge) :=
  match py_handle (_face f) with
  | 1 => [[box_edge 1 3; box_edge 1 5; box_edge 1 4; box_edge 1 6]]
  | 2 => [[box_edge 2 3; box_edge 2 5; box_edge 2 4; box_edge 2 6]]
  | 3 => [[box_edge 1 3; box_edge 3 5; box_edge 2 3; box_edge 3 6]]
  | 4 => [[box_edge 1 4; box_edge 4 5; box_edge 2 4; box_edge 4 6]]
  | 5 => [[box_edge 1 5; box_edge 3 5; box_edge 2 5; box_edge 4 5]]
  | 6 => [[box_edge 1 6; box_edge 3 6; box_edge 2 6; box_edge 4 6]]
  | _ => []
  end%positive.

Definition box : Solid :=
  {| faces := box_face <$> [1; 2; 3; 4; 5; 6]%positive;
     loops := box_loops |}.

Definition sphere_seam : Edge := mk_Edge (mkPyObj TopoDS_Edge 201).
Definition sphere_north : Edge := mk_Edge Demo.pole.
Definition sphere_south : Edge := mk_Edge (mkPyObj TopoDS_Edge 203).

Definition sphere : Solid :=
  {| faces := [box_face 1];
     loops := fun _ =>
       [[sphere_seam; sphere_north; sphere_seam; sphere_south]] |}.

(** Two faces that share the edge whose curve carries the tag 42. *)
Definition odd_pair : Solid :=
  {| faces := [box_face 1; box_face 2];
     loops := fun _ => [[mk_Edge Demo.unnamed_curve]] |}.

(** The number of nodes and of edges of a graph, 0 and 0 when the
    construction failed. *)
Definition sizes (g : result Graph) : nat * nat :=
  match g with
  | Ok g => (List.length (nodes g), List.length (edges g))
  | Raise _ => (0, 0)%nat
  end.

End DemoSolids.

(** ** Mapping over an outcome *)

Definition res_map {A B} (f : A -> B) (r : result A) : result B :=
  match r with
  | Ok a => Ok (f a)
  | Raise x => Raise x
  end.

(** The string [curve_type()] gives for the curve that an accessor of the
    adaptor returns. *)
Definition accessor_name (a : CurveAccessor) : string :=
  match a with
  | Line => "line"
  | Circle => "circle"
  | Ellipse => "ellipse"
  | Hyperbola => "hyperbola"
  | Parabola => "parabola"
  | BezierCurve => "bezier"
  | BSplineCurve => "bspline"
  | OffsetCurve => "offset"
  end.

(** The strings [curve_type()] can return. *)
Definition curve_type_names : list string :=
  ["line"; "circle"; "ellipse"; "hyperbola"; "parabola"; "bezier";
   "bspline"; "offset"; "other"; "unknown"]%string.

(** ** The example script [ex3_solid_to_faceadj_graph.py]

    The script builds the graph of a solid, shows every face with a small
    sphere at its centre, and links the centres of adjacent faces with
    cylinders. The graph, the faces and the viewer come from modules that
    the script imports; what it asks of them is the record [World], and
    what it does to the viewer and to the standard output is kept in the
    state. *)
Module Ex3.

Inductive error :=
  | KeyError
  | AttributeError (name : string).

Record World := mk_World {
  (** the faces that [g.nodes()] runs through, and [len(g.nodes)] *)
  g_nodes : list Face;
  (** the pairs that [g.edges()] runs through, and [len(g.edges)] *)
  g_edges : list (Face * Face);
  (** [g.nodes[face]["index"]], a [KeyError] when there is none *)
  g_index : Face -> option nat;
  (** [face.uv_bounds().min_point()] and [.max_point()] *)
  uv_min_point : Face -> R * R;
  uv_max_point : Face -> R * R;
  (** [face.point(uv)] *)
  Face_point : Face -> R * R -> list R;
  (** [face.bo], an [AttributeError] when the face has no such attribute *)
  Face_bo : Face -> option string
}.

Inductive ViewerCall :=
  | display_sphere (center : list R) (radius : R)
  | display_face (face : Face) (transparency : R)
  | display_text (text : string)
  | display_cylinder (radius height : R) (base_point up_dir : list R)
  | fit
  | show.

Record State := mk_State {
  (** the lines printed, each a text and the number formatted into it *)
  stdout : list (string * nat);
  (** the calls made on the viewer [v], the earliest first *)
  viewer : list ViewerCall;
  (** the dictionary [face_centers] *)
  face_centers : gmap nat (list R)
}.

Definition initial : State := mk_State [] [] ∅.

Definition print (text : string) (n : nat) (s : State) : State :=
  mk_State (stdout s ++ [(text, n)]) (viewer s) (face_centers s).

Definition call_viewer (c : ViewerCall) (s : State) : State :=
  mk_State (stdout s) (viewer s ++ [c]) (face_centers s).

Definition set_center (i : nat) (center : list R) (s : State) : State :=
  mk_State (stdout s) (viewer s) (<[i := center]> (face_centers s)).

(** A statement: the exception it ends with, if any, and the state it
    leaves. *)
Definition Step : Type := State -> option error * State.

Fixpoint for_each {A} (body : A -> Step) (l : list A) : Step :=
  fun s =>
    match l with
    | [] => (None, s)
    | x :: l =>
        match body x s with
        | (None, s') => for_each body l s'
        | (Some err, s') => (Some err, s')
        end
    end.

Definition center_uv (umin vmin umax vmax : R) : R * R :=
  (0.5 * (umax - umin), vmin + 0.5 * (vmax - vmin))%R.

(** The difference of two arrays of the same length, elementwise. *)
Definition np_sub (a b : list R) : list R := zip_with Rminus a b.

(** The body of the loop over [g.nodes()]. *)
Definition visit_face (W : World) (face : Face) : Step :=
  fun s =>
    let '(umin, vmin) := uv_min_point W face in
    let '(umax, vmax) := uv_max_point W face in
    let center := Face_point W face (center_uv umin vmin umax vmax) in
    let s := call_viewer (display_sphere center 0.25) s in
    let s := call_viewer (display_face face 0.8) s in
    match Face_bo W face with
    | None => (Some (AttributeError "bo"), s)
    | Some text =>
        let s := call_viewer (display_text text) s in
        match g_index W face with
        | None => (Some KeyError, s)
        | Some i => (None, set_center i center s)
        end
    end.

(** [face_centers[g.nodes[f]["index"]]], either lookup may fail. *)
Definition center_of (W : World) (s : State) (f : Face) : option (list R) :=
  match g_index W f with
  | None => None
  | Some i => face_centers s !! i
  end.

(** The body of the loop over [g.edges()]. *)
Definition link_faces (W : World) (p : Face * Face) : Step :=
  fun s =>
    let '(fi, fj) := p in
    match center_of W s fi with
    | None => (Some KeyError, s)
    | Some pt1 =>
        match center_of W s fj with
        | None => (Some KeyError, s)
        | Some pt2 =>
            let up_dir := np_sub pt2 pt1 in
            let height := np_norm up_dir in
            if Rlt_dec 1e-3 height
            then (None,
                  call_viewer (display_cylinder 0.2 height pt1 up_dir) s)
            else (None, s)
        end
    end.

(** The script, from the two [print] statements to [v.show()]. *)
Definition main (W : World) : Step :=
  fun s =>
    let s := print "Number of nodes (faces): " (List.length (g_nodes W)) s in
    let s := print "Number of edges: " (List.length (g_edges W)) s in
    (* v = Viewer(backend="wx"); face_centers = {} *)
    let s := mk_State (stdout s) [] ∅ in
    match for_each (visit_face W) (g_nodes W) s with
    | (Some err, s) => (Some err, s)
    | (None, s) =>
        match for_each (link_faces W) (g_edges W) s with
        | (Some err, s) => (Some err, s)
        | (None, s) => (None, call_viewer show (call_viewer fit s))
        end
    end.

(** The point of a face that the script takes for its centre. *)
Definition face_center (W : World) (face : Face) : list R :=
  Face_point W face
    (center_uv (fst (uv_min_point W face)) (snd (uv_min_point W face))
       (fst (uv_max_point W face)) (snd (uv_max_point W face))).

(** The three calls that show a face, given the text of its [bo]. *)
Definition shows_face (W : World) (face : Face) (text : string)
  : list ViewerCall :=
  [display_sphere (face_center W face) 0.25; display_face face 0.8;
   display_text text].

(** Whether a call shows a cylinder. *)
Definition is_cylinder (c : ViewerCall) : bool :=
  match c with
  | display_cylinder _ _ _ _ => true
  | _ => false
  end.

(** A small world to run the script in: two faces with the indices 0
    and 1, an edge between them and a self loop on the first. *)
Definition demo_index (f : Face) : option nat :=
  match py_handle (_face f) with
  | 1%positive => Some 0%nat
  | 2%positive => Some 1%nat
  | _ => None
  end.

Definition demo_world (bo : Face -> option string) : World :=
  {| g_nodes := [mk_Face (mkPyObj TopoDS_Face 1);
                 mk_Face (mkPyObj TopoDS_Face 2)];
     g_edges := [(mk_Face (mkPyObj TopoDS_Face 1),
                  mk_Face (mkPyObj TopoDS_Face 2));
                 (mk_Face (mkPyObj TopoDS_Face 1),
                  mk_Face (mkPyObj TopoDS_Face 1))];
     g_index := demo_index;
     uv_min_point := fun _ => (0, 0)%R;
     uv_max_point := fun _ => (2, 4)%R;
     Face_point := fun f uv =>
       match py_handle (_face f) with
       | 1%positive => [fst uv; snd uv; 0%R]
       | _ => [fst uv; snd uv; 10%R]
       end;
     Face_bo := bo |}.

End Ex3.

(** * Properties *)

(** ** Evaluating methods *)

Ltac run :=
  unfold call, returned, self_after,
    Edge.point, Edge.tangent, Edge.first_derivative, Edge.length,
    Edge.u_bounds, Edge.specific_curve, Edge.curve_type, Edge.twin_edge,
    Edge.has_curve, Edge.curve, Edge.reversed, Edge.hash, Edge.convex,
    Edge.closed, Edge.seam, Edge.periodic, Edge.rational, Edge.continuity,
    Edge.topods_edge,
    Vertex.__eq__, Vertex.__hash__, Vertex.point, Vertex.topods_vertex,
    Vertex.topods_entity,
    bind, ret, throw, getattr, lift in *;
  cbn [fst snd] in *.

Lemma has_curve_returned K e b :
  returned (Edge.has_curve K) e = Ok b -> Is3DCurve K (_edge e) = b.
Proof. run. congruence. Qed.

Lemma isinstance_false o c :
  isinstance o c = false <-> py_class o <> c.
Proof. unfold isinstance. apply bool_decide_eq_false. Qed.

(** ** Curve classification *)

Lemma accessor_tag_in_spec a : accessor_tag a ∈ spec_curve_tags.
Proof. destruct a; unfold spec_curve_tags; cbn; set_solver. Qed.

Lemma specific_curve_cases K e :
  (exists a, GetType K (_edge e) = accessor_tag a /\
     returned (Edge.specific_curve K) e = Ok (mk_SpecificCurve a (_edge e))) \/
  ((forall a, GetType K (_edge e) <> accessor_tag a) /\
   returned (Edge.specific_curve K) e =
     Raise (ValueError "Unknown curve type: " (GetType K (_edge e)))).
Proof.
  run. destruct (GetType K (_edge e)) eqn:E; cbn;
    first [ right; split; [intros a; destruct a; discriminate | reflexivity]
          | left; eexists; split; [ | reflexivity ]; reflexivity ].
Qed.

(** C1, as the code has it: [specific_curve()] returns the result of the
    adaptor's accessor for the eight tags line, circle, ellipse, hyperbola,
    parabola, bezier, bspline and offset; it raises exactly when the tag is
    none of these eight, the tag [GeomAbs_OtherCurve] included, and the
    error is the [ValueError] that carries the tag. *)
Theorem specific_curve_eight_kinds (K : Kernel) (e : Edge) :
  (forall a, GetType K (_edge e) = accessor_tag a ->
     returned (Edge.specific_curve K) e = Ok (mk_SpecificCurve a (_edge e))) /\
  (raises (returned (Edge.specific_curve K) e) <->
     GetType K (_edge e) ∉ accessor_tag <$> accessors) /\
  (forall x, returned (Edge.specific_curve K) e = Raise x ->
     x = ValueError "Unknown curve type: " (GetType K (_edge e))) /\
  self_after (Edge.specific_curve K) e = e.
Proof.
  destruct (specific_curve_cases K e) as [(a & Ht & Hr) | (Hn & Hr)].
  - repeat split.
    + intros a' Ha'. rewrite Hr. rewrite Ht in Ha'.
      assert (a = a') as -> by (destruct a, a'; first [reflexivity | discriminate]).
      reflexivity.
    + rewrite Hr. intros [].
    + intros Hnot. exfalso. apply Hnot. rewrite Ht.
      apply list_elem_of_fmap. exists a. split; [reflexivity | ].
      destruct a; unfold accessors; set_solver.
    + intros x Hx. rewrite Hr in Hx. discriminate.
    + run. destruct (GetType K (_edge e)); reflexivity.
  - repeat split.
    + intros a Ha. destruct (Hn a Ha).
    + intros _ Hin. apply list_elem_of_fmap in Hin as (a & Ha & _).
      exact (Hn a Ha).
    + intros _. rewrite Hr. exact I.
    + intros x Hx. rewrite Hr in Hx. congruence.
    + run. destruct (GetType K (_edge e)); reflexivity.
Qed.

(** C1 as the specification states it fails on an edge whose curve carries
    the tag [GeomAbs_OtherCurve]: the tag is one of the nine of the
    variant, and [specific_curve()] raises. *)
Lemma specific_curve_spec_fails_on_other_curve :
  ~ specific_curve_spec Demo.kernel (mk_Edge Demo.other_curve).
Proof.
  intros [Hret _].
  destruct Hret as [g Hg].
  - unfold spec_curve_tags. cbn. set_solver.
  - vm_compute in Hg. discriminate.
Qed.

(** C2, as the code has it: on a tag that is none of the nine named ones
    [curve_type()] does not raise and returns the string "unknown"; it is
    [specific_curve()] that raises on such a tag, a [ValueError] that
    carries the tag. *)
Theorem curve_type_unknown_fallback (K : Kernel) (e : Edge) (tag : Z) :
  GetType K (_edge e) = GeomAbs_Unnamed tag ->
  returned (Edge.curve_type K) e = Ok "unknown"%string /\
  returned (Edge.specific_curve K) e =
    Raise (ValueError "Unknown curve type: " (GeomAbs_Unnamed tag)).
Proof. intros H. run. rewrite H. split; reflexivity. Qed.

Lemma curve_type_unknown_fallback_witness :
  returned (Edge.curve_type Demo.kernel) (mk_Edge Demo.unnamed_curve)
    = Ok "unknown"%string /\
  returned (Edge.specific_curve Demo.kernel) (mk_Edge Demo.unnamed_curve)
    = Raise (ValueError "Unknown curve type: " (GeomAbs_Unnamed 42)).
Proof.
  apply (curve_type_unknown_fallback Demo.kernel (mk_Edge Demo.unnamed_curve) 42).
  reflexivity.
Defined.

(** C2 as the specification states it fails on an edge whose curve carries
    the unnamed tag 42: [curve_type()] returns a string and does not
    raise. *)
Lemma curve_type_spec_fails_on_unnamed_tag :
  ~ curve_type_spec Demo.kernel (mk_Edge Demo.unnamed_curve).
Proof.
  intros H. apply H. vm_compute.
  intros Hin. repeat (apply elem_of_cons in Hin as [Hin | Hin];
                      [discriminate | ]).
  inversion Hin.
Qed.


(** ** Edges without a 3D curve *)

(** C3: on an edge whose [has_curve()] is false, at every parameter,
    [point] returns the origin and [tangent] and [first_derivative] the
    zero vector, each as a value and not as an exception, and the edge is
    left as it was. *)
Theorem no_curve_point_tangent_derivative (K : Kernel) (e : Edge) (u : R) :
  returned (Edge.has_curve K) e = Ok false ->
  Edge.point K u e = (Ok (IntArray [0; 0; 0]), e) /\
  Edge.tangent K u e = (Ok (IntArray [0; 0; 0]), e) /\
  Edge.first_derivative K u e = (Ok (IntArray [0; 0; 0]), e).
Proof.
  intros H%has_curve_returned. run. rewrite H. repeat split.
Qed.

Lemma no_curve_point_tangent_derivative_witness :
  Edge.point Demo.kernel 2 (mk_Edge Demo.pole)
    = (Ok (IntArray [0; 0; 0]), mk_Edge Demo.pole) /\
  Edge.tangent Demo.kernel 2 (mk_Edge Demo.pole)
    = (Ok (IntArray [0; 0; 0]), mk_Edge Demo.pole) /\
  Edge.first_derivative Demo.kernel 2 (mk_Edge Demo.pole)
    = (Ok (IntArray [0; 0; 0]), mk_Edge Demo.pole).
Proof.
  apply (no_curve_point_tangent_derivative Demo.kernel (mk_Edge Demo.pole) 2).
  reflexivity.
Defined.

(** C5: on an edge whose [has_curve()] is false, [length] returns 0 for
    every tolerance and [u_bounds()] returns the interval built with no
    bounds, the empty one. *)
Theorem no_curve_length_u_bounds (K : Kernel) (e : Edge) (tolerance : R) :
  returned (Edge.has_curve K) e = Ok false ->
  returned (Edge.length K tolerance) e = Ok 0%R /\
  returned (Edge.u_bounds K) e = Ok Interval_0.
Proof.
  intros H%has_curve_returned. run. rewrite H. split; reflexivity.
Qed.

Lemma no_curve_length_u_bounds_witness :
  returned (Edge.length Demo.kernel 1) (mk_Edge Demo.pole) = Ok 0%R /\
  returned (Edge.u_bounds Demo.kernel) (mk_Edge Demo.pole) = Ok Interval_0.
Proof.
  apply (no_curve_length_u_bounds Demo.kernel (mk_Edge Demo.pole) 1).
  reflexivity.
Defined.

(** ** Construction *)

Lemma Edge_new_debug o : Edge_new true o = Edge.__init__ o.
Proof.
  unfold Edge_new, Edge.__init__, py_assert.
  destruct (isinstance o TopoDS_Edge); reflexivity.
Qed.

Lemma Vertex_new_debug o : Vertex_new true o = Vertex.__init__ o.
Proof.
  unfold Vertex_new, Vertex.__init__, py_assert.
  destruct (isinstance o TopoDS_Vertex); reflexivity.
Qed.

(** C6, as the code has it: with the assertions of the interpreter on,
    building an [Edge] from an object that is not a [TopoDS_Edge], or a
    [Vertex] from one that is not a [TopoDS_Vertex], ends at construction
    in an [AssertionError], which is not a [TypeError], with no wrapper
    returned; hence every wrapper built that way holds a handle of its own
    kind. With the assertions off the check is not made, and the wrapper
    is returned around the object as it was given. *)
Theorem wrong_kind_raises_AssertionError (o : PyObj) :
  (isinstance o TopoDS_Edge = false ->
     Edge_new true o = Raise AssertionError /\
     Edge.__init__ o = Raise AssertionError) /\
  (isinstance o TopoDS_Vertex = false ->
     Vertex_new true o = Raise AssertionError /\
     Vertex.__init__ o = Raise AssertionError) /\
  (forall e, Edge_new true o = Ok e ->
     isinstance (_edge e) TopoDS_Edge = true /\ _edge e = o) /\
  (forall v, Vertex_new true o = Ok v ->
     isinstance (_vertex v) TopoDS_Vertex = true /\ _vertex v = o) /\
  Edge_new false o = Ok {| _edge := o |} /\
  Vertex_new false o = Ok {| _vertex := o |} /\
  AssertionError <> TypeError.
Proof.
  rewrite !Edge_new_debug, !Vertex_new_debug.
  unfold Edge.__init__, Vertex.__init__.
  split; [intros ->; split; reflexivity | ].
  split; [intros ->; split; reflexivity | ].
  split.
  { intros e He. destruct (isinstance o TopoDS_Edge) eqn:E; [ | discriminate He].
    injection He as <-. split; [exact E | reflexivity]. }
  split.
  { intros v Hv.
    destruct (isinstance o TopoDS_Vertex) eqn:E; [ | discriminate Hv].
    injection Hv as <-. split; [exact E | reflexivity]. }
  split; [reflexivity | ]. split; [reflexivity | discriminate].
Qed.

Lemma wrong_kind_raises_AssertionError_witness :
  Edge.__init__ Demo.side = Raise AssertionError /\
  Vertex.__init__ Demo.side = Raise AssertionError /\
  Edge_new false Demo.side = Ok {| _edge := Demo.side |}.
Proof.
  destruct (wrong_kind_raises_AssertionError Demo.side)
    as (He & Hv & _ & _ & HO & _).
  split; [apply He; reflexivity | ].
  split; [apply Hv; reflexivity | exact HO].
Defined.

(** C6 as the specification states it fails on a face handed to the two
    constructors: with the assertions on, the error raised is not a
    type error, and with the assertions off no error is raised. *)
Lemma construction_spec_fails_on_a_face :
  ~ construction_spec true Demo.side /\ ~ construction_spec false Demo.side.
Proof.
  split; intros [He _]; specialize (He eq_refl); discriminate He.
Qed.

(** ** Half-edge support *)

(** C8: [twin_edge()] raises [NotImplementedError] on every edge and
    returns no value. *)
Theorem twin_edge_raises (e : Edge) :
  returned Edge.twin_edge e = Raise NotImplementedError /\
  (forall t, returned Edge.twin_edge e <> Ok t).
Proof. split; [reflexivity | intros t; discriminate]. Qed.

(** ** Vertex identity *)

(** C4, as the code has it: two vertices compare equal exactly when the
    hash codes of their wrapped handles are equal. Hence structurally
    identical handles always compare equal, handles with different hash
    codes never do, and the coordinates stored in the vertices play no
    part; the hash of a vertex is the hash code of its handle; and where
    the hash code of the kernel is injective, equality is structural
    identity of the handles. *)
Theorem vertex_eq_is_hash_eq (K : Kernel) (v w : Vertex) :
  (returned (Vertex.__eq__ K w) v = Ok true <->
     HashCode K (_vertex v) = HashCode K (_vertex w)) /\
  (_vertex v = _vertex w -> returned (Vertex.__eq__ K w) v = Ok true) /\
  (HashCode K (_vertex v) <> HashCode K (_vertex w) ->
     returned (Vertex.__eq__ K w) v = Ok false) /\
  (forall pnt, returned (Vertex.__eq__ (with_Pnt pnt K) w) v
               = returned (Vertex.__eq__ K w) v) /\
  returned (Vertex.__hash__ K) v = Ok (HashCode K (_vertex v)) /\
  ((forall a b, HashCode K a = HashCode K b -> a = b) ->
     (returned (Vertex.__eq__ K w) v = Ok true <-> _vertex v = _vertex w)).
Proof.
  assert (returned (Vertex.__eq__ K w) v = Ok true <->
            HashCode K (_vertex v) = HashCode K (_vertex w)) as Hiff.
  { run. split.
    - intros [= H%bool_decide_eq_true]. exact H.
    - intros H. f_equal. apply bool_decide_eq_true. exact H. }
  split; [exact Hiff | ].
  split; [intros H; apply Hiff; rewrite H; reflexivity | ].
  split; [intros H; run; f_equal; apply bool_decide_eq_false; exact H | ].
  split; [intros pnt; reflexivity | ].
  split; [reflexivity | ].
  intros Hinj. rewrite Hiff. split; [apply Hinj | intros ->; reflexivity].
Qed.

(** C4 as the specification states it fails on two vertices at the same
    coordinates whose distinct handles have the same hash code: they
    compare equal. *)
Lemma vertex_eq_spec_fails_on_hash_collision :
  BRep_Tool_Pnt Demo.kernel Demo.corner
    = BRep_Tool_Pnt Demo.kernel Demo.far_corner /\
  ~ vertex_eq_spec Demo.kernel (mk_Vertex Demo.corner)
      (mk_Vertex Demo.far_corner).
Proof.
  split; [reflexivity | ].
  intros [H _]. specialize (H eq_refl). discriminate H.
Qed.

(** ** Tangent and first derivative *)

(** C9, as the code has it: on an edge with a 3D curve, [tangent(u)] and
    [first_derivative(u)] start from the same derivative of the kernel;
    [first_derivative(u)] is its conversion, with no sign applied;
    [tangent(u)] is the conversion of what the kernel's [Normalize] makes
    of it, negated exactly when [reversed()] is true, that is when the
    orientation of the edge is [TopAbs_REVERSED]; and when [Normalize]
    fails [tangent(u)] raises the kernel's exception. *)
Theorem tangent_is_oriented_kernel_normalisation (K : Kernel) (e : Edge)
    (u : R) :
  returned (Edge.has_curve K) e = Ok true ->
  returned (Edge.first_derivative K u) e
    = Ok (gp_to_numpy_vec K (derivative_at K e u)) /\
  returned (Edge.reversed K) e
    = Ok (bool_decide (Orientation K (_edge e) = TopAbs_REVERSED)) /\
  returned (Edge.tangent K u) e =
    match Normalize K (derivative_at K e u), returned (Edge.reversed K) e with
    | Ok n, Ok true => Ok (np_neg (gp_to_numpy_vec K n))
    | Ok n, Ok false => Ok (gp_to_numpy_vec K n)
    | Raise x, _ => Raise x
    | _, Raise x => Raise x
    end.
Proof.
  intros Hc%has_curve_returned. unfold derivative_at. run. rewrite Hc.
  destruct (D1 _ u gp_Pnt_new gp_Vec_new) as [pt der]. cbn [snd].
  split; [reflexivity | ]. split; [reflexivity | ].
  destruct (Normalize K der) as [n | x]; [ | reflexivity].
  destruct (bool_decide _); reflexivity.
Qed.

Lemma tangent_is_oriented_kernel_normalisation_witness :
  returned (Edge.first_derivative Demo.kernel 2)
    (mk_Edge Demo.straight_reversed)
  = Ok (FloatArray [3; 4; 0]%R) /\
  returned (Edge.reversed Demo.kernel) (mk_Edge Demo.straight_reversed)
  = Ok true.
Proof.
  destruct (tangent_is_oriented_kernel_normalisation Demo.kernel
              (mk_Edge Demo.straight_reversed) 2) as (Hd & Hrev & _).
  - reflexivity.
  - split; [exact Hd | exact Hrev].
Defined.

Lemma Resolution_positive : (0 < Demo.Resolution)%R.
Proof. unfold Demo.Resolution. lra. Qed.

Lemma Magnitude_along_x x : (0 <= x)%R -> Magnitude (mk_gp_Vec x 0 0) = x.
Proof.
  intros Hx. unfold Magnitude. cbn.
  replace (x * x + 0 * 0 + 0 * 0)%R with (x * x)%R by ring.
  apply sqrt_square, Hx.
Qed.

Lemma strict_kernel_tangent_raises u o :
  returned (Edge.tangent Demo.strict_kernel u) (mk_Edge o) =
    Raise (Standard_Failure "gp_Vec::Normalize() - vector has zero norm").
Proof.
  run. unfold Demo.strict_kernel.
  cbn [Is3DCurve BRep_Tool_Curve Normalize fst3 fst snd D1 Demo.creeping
       _edge].
  destruct (Rle_dec _ _) as [Hle | Hgt]; [reflexivity | ].
  exfalso. apply Hgt.
  rewrite Magnitude_along_x; [lra | ].
  apply Rlt_le, Resolution_positive.
Qed.

(** C9 as the specification states it fails on an edge whose curve has a
    derivative that is not zero and no longer than the resolution of the
    kernel: [Normalize] fails there, and [tangent(u)] raises instead of
    returning the derivative divided by its norm. *)
Lemma tangent_spec_fails_on_a_creeping_curve :
  ~ tangent_spec Demo.strict_kernel (mk_Edge Demo.straight) 2.
Proof.
  intros H. destruct H as (d & rev & _ & _ & Ht).
  - reflexivity.
  - change (mk_gp_Vec Demo.Resolution 0 0 <> mk_gp_Vec 0 0 0).
    intros [= HR]. pose proof Resolution_positive. lra.
  - rewrite strict_kernel_tangent_raises in Ht. destruct rev; discriminate Ht.
Qed.

(** ** Queries are read-only *)

Lemma Edge_call_id K q e : Edge_call K q e = e.
Proof.
  destruct (Is3DCurve K (_edge e)) eqn:E3;
    destruct (GetType K (_edge e)) eqn:EG;
    destruct q; cbn [Edge_call]; run; cbv beta;
    rewrite ?E3, ?EG; cbn; rewrite ?E3; cbn; try reflexivity;
    repeat match goal with
      | |- context [D1 ?c ?u ?p ?d] => destruct (D1 c u p d) as [pt der]
      | |- context [Normalize ?k ?d] => destruct (Normalize k d)
      | |- context [bool_decide ?P] => destruct (bool_decide P)
      | |- context [BRep_Tool_Curve ?k ?o] =>
          destruct (BRep_Tool_Curve k o) as [[c umin] umax]
      end; reflexivity.
Qed.

Lemma Vertex_call_id K q v : Vertex_call K q v = v.
Proof. destruct q; reflexivity. Qed.

Lemma Edge_calls_id K qs e : Edge_calls K qs e = e.
Proof.
  unfold Edge_calls. induction qs as [ | q qs IH]; cbn; [reflexivity | ].
  rewrite Edge_call_id. exact IH.
Qed.

Lemma Vertex_calls_id K qs v : Vertex_calls K qs v = v.
Proof.
  unfold Vertex_calls. induction qs as [ | q qs IH]; cbn; [reflexivity | ].
  rewrite Vertex_call_id. exact IH.
Qed.

(** C10: after any sequence of queries on an [Edge] built from a handle,
    [topods_edge()] still returns that handle and [hash()] returns what it
    returned before; likewise [topods_vertex()], [topods_entity()] and the
    hash of a [Vertex]. *)
Theorem queries_are_read_only (K : Kernel) (oe ov : PyObj) (e : Edge)
    (v : Vertex) (qe : list EdgeQuery) (qv : list VertexQuery) :
  Edge.__init__ oe = Ok e ->
  Vertex.__init__ ov = Ok v ->
  returned Edge.topods_edge (Edge_calls K qe e) = Ok oe /\
  returned (Edge.hash K) (Edge_calls K qe e) = returned (Edge.hash K) e /\
  returned Vertex.topods_vertex (Vertex_calls K qv v) = Ok ov /\
  returned Vertex.topods_entity (Vertex_calls K qv v) = Ok ov /\
  returned (Vertex.__hash__ K) (Vertex_calls K qv v)
    = returned (Vertex.__hash__ K) v.
Proof.
  intros He Hv. rewrite Edge_calls_id, Vertex_calls_id.
  unfold Edge.__init__ in He. unfold Vertex.__init__ in Hv.
  destruct (isinstance oe TopoDS_Edge); [ | discriminate].
  destruct (isinstance ov TopoDS_Vertex); [ | discriminate].
  injection He as <-. injection Hv as <-. repeat split.
Qed.

Lemma queries_are_read_only_witness :
  returned Edge.topods_edge
    (Edge_calls Demo.kernel
       [Q_tangent 2; Q_twin_edge; Q_specific_curve; Q_length 1; Q_hash]
       (mk_Edge Demo.other_curve)) = Ok Demo.other_curve /\
  returned Vertex.topods_vertex
    (Vertex_calls Demo.kernel
       [Q_Vertex_eq (mk_Vertex Demo.far_corner); Q_Vertex_point]
       (mk_Vertex Demo.corner)) = Ok Demo.corner.
Proof.
  destruct (queries_are_read_only Demo.kernel Demo.other_curve Demo.corner
              (mk_Edge Demo.other_curve) (mk_Vertex Demo.corner)
              [Q_tangent 2; Q_twin_edge; Q_specific_curve; Q_length 1; Q_hash]
              [Q_Vertex_eq (mk_Vertex Demo.far_corner); Q_Vertex_point])
    as (H1 & _ & H2 & _).
  - reflexivity.
  - reflexivity.
  - split; assumption.
Defined.

(** ** The face adjacency graph *)

Example box_graph_sizes :
  DemoSolids.sizes (face_adjacency Demo.kernel Reject DemoSolids.box false)
    = (6, 12)%nat /\
  DemoSolids.sizes (face_adjacency Demo.kernel Reject DemoSolids.box true)
    = (6, 12)%nat.
Proof. split; vm_compute; reflexivity. Qed.

Example sphere_graph_sizes :
  DemoSolids.sizes (face_adjacency Demo.kernel Reject DemoSolids.sphere false)
    = (1, 0)%nat /\
  DemoSolids.sizes (face_adjacency Demo.kernel Reject DemoSolids.sphere true)
    = (1, 1)%nat.
Proof. split; vm_compute; reflexivity. Qed.

Lemma assign_indices_faces fs next ns :
  NoDup (node_face <$> ns) ->
  NoDup (node_face <$> assign_indices fs next ns) /\
  (forall f, f ∈ node_face <$> assign_indices fs next ns <->
             f ∈ node_face <$> ns \/ f ∈ fs).
Proof.
  revert next ns. induction fs as [ | f fs IH]; intros next ns Hnd; cbn.
  - split; [exact Hnd | ]. intros f. rewrite elem_of_nil. tauto.
  - unfold visited. destruct (bool_decide_reflect (f ∈ node_face <$> ns))
      as [Hin | Hout].
    + destruct (IH next ns Hnd) as [Hnd' Hel]. split; [exact Hnd' | ].
      intros g. rewrite Hel, elem_of_cons.
      split; [tauto | ]. intros [H | [-> | H]]; tauto.
    + destruct (IH (S next) (ns ++ [mk_GraphNode f next])) as [Hnd' Hel].
      { rewrite fmap_app. apply NoDup_app. split; [exact Hnd | ].
        split; [ | apply NoDup_singleton].
        intros g Hg. cbn. rewrite list_elem_of_singleton. congruence. }
      split; [exact Hnd' | ].
      intros g. rewrite Hel, fmap_app, elem_of_app, elem_of_cons. cbn.
      rewrite list_elem_of_singleton. tauto.
Qed.

Lemma assign_indices_length fs :
  List.length (assign_indices fs 0 []) = List.length (remove_dups fs).
Proof.
  destruct (assign_indices_faces fs 0 []) as [Hnd Hel]; [constructor | ].
  rewrite <- (length_fmap node_face).
  apply Permutation_length, NoDup_Permutation.
  - exact Hnd.
  - apply NoDup_remove_dups.
  - intros f. rewrite Hel, elem_of_remove_dups. cbn. rewrite elem_of_nil.
    tauto.
Qed.

(** When the traversal meets no face twice, the number of faces is the
    length of the traversal. *)
Lemma num_faces_NoDup S : NoDup (faces S) -> num_faces S = List.length (faces S).
Proof.
  intros Hnd. unfold num_faces.
  apply Permutation_length, NoDup_Permutation.
  - apply NoDup_remove_dups.
  - exact Hnd.
  - intros f. apply elem_of_remove_dups.
Qed.

Lemma attach_curve_type_raise K e x :
  attach_curve_type K e = Raise x ->
  exists tag, GetType K (_edge e) = GeomAbs_Unnamed tag /\
    x = UnsupportedClassification (GeomAbs_Unnamed tag).
Proof.
  unfold attach_curve_type. run.
  destruct (GetType K (_edge e)) as [ | | | | | | | | | tag]; cbn;
    try discriminate.
  intros [= <-]. exists tag. split; reflexivity.
Qed.

Lemma derive_attrs_raise K e f1 f2 x :
  derive_attrs K e f1 f2 = Raise x ->
  exists tag, GetType K (_edge e) = GeomAbs_Unnamed tag /\
    x = UnsupportedClassification (GeomAbs_Unnamed tag).
Proof.
  unfold derive_attrs. run. cbn.
  destruct (attach_curve_type K e) as [ty | y] eqn:E; cbn; [discriminate | ].
  intros [= ->]. apply attach_curve_type_raise, E.
Qed.

Lemma emit_raise K self_loops e p x :
  emit K self_loops e p = Raise x ->
  exists tag, GetType K (_edge e) = GeomAbs_Unnamed tag /\
    x = UnsupportedClassification (GeomAbs_Unnamed tag).
Proof.
  unfold emit. destruct p as [n1 n2].
  destruct (_ && _); [discriminate | ].
  destruct (derive_attrs K e (node_face n1) (node_face n2)) as [a | y] eqn:E;
    cbn; [discriminate | ].
  intros [= ->]. apply (derive_attrs_raise K e _ _ _ E).
Qed.

Lemma res_mapM_raise {A B} (f : A -> result B) l x :
  res_mapM f l = Raise x -> exists a, a ∈ l /\ f a = Raise x.
Proof.
  induction l as [ | a l IH]; cbn; [discriminate | ].
  destruct (f a) as [y | x'] eqn:Ea; cbn.
  - destruct (res_mapM f l) as [ys | x'']; cbn; [discriminate | ].
    intros [= ->]. destruct (IH eq_refl) as (b & Hb & Hfb).
    exists b. split; [right; exact Hb | exact Hfb].
  - intros [= ->]. exists a. split; [left | exact Ea].
Qed.

Lemma edges_of_raise K policy self_loops uses e x :
  edges_of K policy self_loops uses e = Raise x ->
  (policy = Reject /\ x = TopologyError (_edge e) /\
   (2 < List.length (mates uses e))%nat) \/
  (exists tag, GetType K (_edge e) = GeomAbs_Unnamed tag /\
     x = UnsupportedClassification (GeomAbs_Unnamed tag)).
Proof.
  unfold edges_of.
  destruct (bool_decide_reflect (List.length (mates uses e) ≤ 2)%nat)
    as [Hle | Hgt]; cbn.
  - destruct (res_mapM _ _) as [ess | y] eqn:E; cbn; [discriminate | ].
    intros [= ->]. right.
    apply res_mapM_raise in E as (p & _ & Hp). apply (emit_raise _ _ _ _ _ Hp).
  - destruct (bool_decide_reflect (policy = ExpandPairwise)) as [-> | Hp]; cbn.
    + destruct (res_mapM _ _) as [ess | y] eqn:E; cbn; [discriminate | ].
      intros [= ->]. right.
      apply res_mapM_raise in E as (p & _ & Hp).
      apply (emit_raise _ _ _ _ _ Hp).
    + intros [= <-]. left. split; [destruct policy; congruence | ].
      split; [reflexivity | lia].
Qed.

Lemma first_uses_elem (es seen : list Edge) e :
  e ∈ first_uses es seen <-> e ∈ seen \/ e ∈ es.
Proof.
  revert seen. induction es as [ | e0 es IH]; intros seen; cbn.
  - rewrite elem_of_nil. tauto.
  - destruct (bool_decide_reflect (e0 ∈ seen)) as [Hin | Hout].
    + rewrite IH, elem_of_cons. split; [tauto | ].
      intros [H | [-> | H]]; tauto.
    + rewrite IH, elem_of_app, list_elem_of_singleton, elem_of_cons. tauto.
Qed.

(** C7: every graph built from a solid has as many nodes as the solid has
    faces, whatever the setting of [self_loops] and the policy for
    non-manifold edges. The construction fails in two cases only: under
    the policy that rejects them, on an edge with more than two mates;
    and on an edge of the solid whose curve-type tag is not recognised,
    with the error that names the tag. *)
Theorem node_count_is_face_count (K : Kernel) (policy : NonManifoldPolicy)
    (S : Solid) (self_loops : bool) :
  match face_adjacency K policy S self_loops with
  | Ok g => List.length (nodes g) = num_faces S
  | Raise x =>
      exists e,
        e ∈ fst <$> edge_uses S (assign_indices (faces S) 0 []) /\
        ((policy = Reject /\ x = TopologyError (_edge e) /\
          (2 < List.length
                 (mates (edge_uses S (assign_indices (faces S) 0 [])) e))%nat)
         \/
         (exists tag, GetType K (_edge e) = GeomAbs_Unnamed tag /\
            x = UnsupportedClassification (GeomAbs_Unnamed tag)))
  end.
Proof.
  unfold face_adjacency.
  destruct (res_mapM _ _) as [ess | x] eqn:E; cbn.
  - apply assign_indices_length.
  - apply res_mapM_raise in E as (e & He & Hx).
    exists e. split.
    + apply first_uses_elem in He as [He | He]; [inversion He | exact He].
    + apply (edges_of_raise _ _ _ _ _ _ Hx).
Qed.

(** Two faces that share an edge with the unnamed tag 42: no graph is
    built, and the error names the tag. *)
Example odd_pair_is_refused :
  face_adjacency Demo.kernel ExpandPairwise DemoSolids.odd_pair true
    = Raise (UnsupportedClassification (GeomAbs_Unnamed 42)).
Proof. vm_compute. reflexivity. Qed.

(** * Further properties of the wrappers *)

(** ** Orientation *)

Lemma np_neg_involutive a : np_neg (np_neg a) = a.
Proof.
  destruct a as [l | l]; cbn; f_equal; rewrite <- list_fmap_compose;
    rewrite <- (list_fmap_id l) at 2; apply list_fmap_ext; intros i x _; cbn.
  - apply Z.opp_involutive.
  - apply Ropp_involutive.
Qed.

(** Reversing an edge negates its tangent: with the orientation flag on
    [TopAbs_REVERSED], [tangent(u)] is the negation of what it is with any
    other flag; an exception of the kernel is the same in both, and the
    zero vector of an edge without a curve is its own negation. Negating
    twice gives the tangent back. *)
Theorem tangent_negated_by_reversal (K : Kernel) (e : Edge) (u : R)
    (f g : PyObj -> TopAbs_Orientation) :
  f (_edge e) = TopAbs_REVERSED ->
  g (_edge e) <> TopAbs_REVERSED ->
  returned (Edge.tangent (with_Orientation f K) u) e
    = res_map np_neg (returned (Edge.tangent (with_Orientation g K) u) e) /\
  returned (Edge.tangent (with_Orientation g K) u) e
    = res_map np_neg (returned (Edge.tangent (with_Orientation f K) u) e).
Proof.
  intros Hf Hg. run. cbn.
  destruct (Is3DCurve K (_edge e)); [ | split; reflexivity].
  destruct (D1 _ u gp_Pnt_new gp_Vec_new) as [pt der].
  destruct (Normalize K der) as [n | x]; [ | split; reflexivity].
  rewrite (bool_decide_eq_true_2 _ Hf), (bool_decide_eq_false_2 _ Hg). cbn.
  rewrite np_neg_involutive. split; reflexivity.
Qed.

Lemma tangent_negated_by_reversal_witness :
  returned (Edge.tangent
              (with_Orientation (fun _ => TopAbs_REVERSED) Demo.kernel) 2)
    (mk_Edge Demo.straight)
  = res_map np_neg
      (returned (Edge.tangent
                   (with_Orientation (fun _ => TopAbs_FORWARD) Demo.kernel) 2)
         (mk_Edge Demo.straight)).
Proof.
  apply (tangent_negated_by_reversal Demo.kernel (mk_Edge Demo.straight) 2
           (fun _ => TopAbs_REVERSED) (fun _ => TopAbs_FORWARD)).
  - reflexivity.
  - discriminate.
Defined.

(** ** Failure of the tangent *)

(** [tangent(u)] raises exactly when the edge has a 3D curve and the
    kernel fails to normalise the derivative at [u], and then with the
    kernel's exception; [first_derivative(u)] returns the derivative
    at that parameter all the same. *)
Theorem tangent_raises_iff_Normalize_fails (K : Kernel) (e : Edge) (u : R)
    (x : exn) :
  (returned (Edge.tangent K u) e = Raise x <->
     Is3DCurve K (_edge e) = true /\
     Normalize K (derivative_at K e u) = Raise x) /\
  (Is3DCurve K (_edge e) = true ->
     returned (Edge.first_derivative K u) e
       = Ok (gp_to_numpy_vec K (derivative_at K e u))).
Proof.
  unfold derivative_at. run. cbn.
  destruct (Is3DCurve K (_edge e)).
  - destruct (D1 _ u gp_Pnt_new gp_Vec_new) as [pt der]. cbn.
    split; [ | reflexivity].
    destruct (Normalize K der) as [n | y].
    + split; [ | intros [_ H]; discriminate H].
      destruct (bool_decide _); discriminate.
    + split; [intros [= ->]; split; reflexivity | intros [_ [= ->]]; reflexivity].
  - split; [ | discriminate].
    split; [discriminate | intros [H _]; discriminate H].
Qed.

(** ** The two classifications of a curve *)

(** [specific_curve()] and [curve_type()] agree: when the first returns
    the result of an accessor, the second returns the name of that kind
    of curve, and the first raises exactly when the second returns
    "other" or "unknown". *)
Theorem specific_curve_agrees_with_curve_type (K : Kernel) (e : Edge) :
  (forall c, returned (Edge.specific_curve K) e = Ok c ->
     returned (Edge.curve_type K) e = Ok (accessor_name (sc_accessor c))) /\
  (raises (returned (Edge.specific_curve K) e) <->
     returned (Edge.curve_type K) e = Ok "other"%string \/
     returned (Edge.curve_type K) e = Ok "unknown"%string).
Proof.
  run. destruct (GetType K (_edge e)); cbn; split;
    first [ intros c [= <-]; reflexivity
          | intros c H; discriminate H
          | split; [intros [] | intros [H | H]; discriminate H]
          | split; [intros _; first [left; reflexivity | right; reflexivity]
                   | intros _; exact I] ].
Qed.

(** [curve_type()] returns one of ten strings, and a string other than
    "unknown" tells the tag of the curve: two edges, of two kernels even,
    with the same such string have the same tag. *)
Theorem curve_type_names_the_tag (K1 K2 : Kernel) (e1 e2 : Edge) :
  (exists s, s ∈ curve_type_names /\ returned (Edge.curve_type K1) e1 = Ok s) /\
  (returned (Edge.curve_type K1) e1 = returned (Edge.curve_type K2) e2 ->
   returned (Edge.curve_type K1) e1 <> Ok "unknown"%string ->
   GetType K1 (_edge e1) = GetType K2 (_edge e2)).
Proof.
  run. split.
  - destruct (GetType K1 (_edge e1)); cbn; eexists;
      (split; [ | reflexivity]); unfold curve_type_names; set_solver.
  - destruct (GetType K1 (_edge e1)), (GetType K2 (_edge e2)); cbn;
      intros Heq Hun;
      first [reflexivity | discriminate Heq | exfalso; apply Hun; reflexivity].
Qed.

(** ** Equality of vertices *)

(** [==] on vertices is an equivalence relation, and it agrees with the
    hash: two vertices are equal exactly when their hashes are. *)
Theorem vertex_eq_equivalence (K : Kernel) (a b c : Vertex) :
  returned (Vertex.__eq__ K a) a = Ok true /\
  returned (Vertex.__eq__ K b) a = returned (Vertex.__eq__ K a) b /\
  (returned (Vertex.__eq__ K b) a = Ok true ->
   returned (Vertex.__eq__ K c) b = Ok true ->
   returned (Vertex.__eq__ K c) a = Ok true) /\
  (returned (Vertex.__eq__ K b) a = Ok true <->
   returned (Vertex.__hash__ K) a = returned (Vertex.__hash__ K) b).
Proof.
  run. repeat split.
  - f_equal. apply bool_decide_eq_true. reflexivity.
  - f_equal. apply bool_decide_ext. split; intros H; symmetry; exact H.
  - intros [= H1%bool_decide_eq_true] [= H2%bool_decide_eq_true].
    f_equal. apply bool_decide_eq_true. congruence.
  - intros [= H%bool_decide_eq_true]. f_equal. exact H.
  - intros [= H]. f_equal. apply bool_decide_eq_true. exact H.
Qed.

(** * Properties of the example script *)

(** ** Linking two faces *)

Lemma np_norm_sub_self pt : np_norm (Ex3.np_sub pt pt) = 0%R.
Proof.
  unfold np_norm, Ex3.np_sub.
  replace (foldr (fun x acc => x * x + acc)%R 0%R (zip_with Rminus pt pt))
    with 0%R; [apply sqrt_0 | ].
  induction pt as [ | x pt IH]; cbn; [reflexivity | ].
  rewrite <- IH. ring.
Qed.

Lemma threshold_positive : ~ (1e-3 < 0)%R.
Proof. lra. Qed.

(** Between two faces whose centres are recorded the script shows a
    cylinder exactly when the centres are more than 1e-3 apart, from the
    first centre along the difference of the two; it raises nothing and
    changes neither the dictionary nor the output. *)
Theorem link_faces_shows_cylinder_iff_apart (W : Ex3.World) (s : Ex3.State)
    (fi fj : Face) (pt1 pt2 : list R) :
  Ex3.center_of W s fi = Some pt1 ->
  Ex3.center_of W s fj = Some pt2 ->
  let height := np_norm (Ex3.np_sub pt2 pt1) in
  ((1e-3 < height)%R ->
     Ex3.link_faces W (fi, fj) s =
       (None,
        Ex3.call_viewer
          (Ex3.display_cylinder 0.2 height pt1 (Ex3.np_sub pt2 pt1)) s)) /\
  (~ (1e-3 < height)%R -> Ex3.link_faces W (fi, fj) s = (None, s)).
Proof.
  intros H1 H2 height. unfold Ex3.link_faces. rewrite H1, H2.
  fold height. destruct (Rlt_dec 1e-3 height) as [Hlt | Hge].
  - split; [reflexivity | intros Hn; destruct (Hn Hlt)].
  - split; [intros Hlt; destruct (Hge Hlt) | reflexivity].
Qed.

Lemma link_faces_shows_cylinder_iff_apart_witness :
  Ex3.link_faces (Ex3.demo_world (fun _ => None))
    (mk_Face (mkPyObj TopoDS_Face 1), mk_Face (mkPyObj TopoDS_Face 1))
    (Ex3.set_center 0 [0; 0; 0]%R Ex3.initial)
  = (None, Ex3.set_center 0 [0; 0; 0]%R Ex3.initial).
Proof.
  apply (link_faces_shows_cylinder_iff_apart (Ex3.demo_world (fun _ => None))
           (Ex3.set_center 0 [0; 0; 0]%R Ex3.initial)
           (mk_Face (mkPyObj TopoDS_Face 1)) (mk_Face (mkPyObj TopoDS_Face 1))
           [0; 0; 0]%R [0; 0; 0]%R).
  - reflexivity.
  - reflexivity.
  - rewrite np_norm_sub_self. apply threshold_positive.
Defined.

(** A self loop of the graph, and any edge between two faces with the
    same centre, gets no cylinder: the state is left as it was. *)
Theorem self_loop_shows_no_cylinder (W : Ex3.World) (s : Ex3.State)
    (fi fj : Face) (pt : list R) :
  Ex3.center_of W s fi = Some pt ->
  Ex3.center_of W s fj = Some pt ->
  Ex3.link_faces W (fi, fj) s = (None, s).
Proof.
  intros H1 H2. unfold Ex3.link_faces. rewrite H1, H2.
  rewrite np_norm_sub_self.
  destruct (Rlt_dec 1e-3 0) as [Hlt | _]; [ | reflexivity].
  destruct (threshold_positive Hlt).
Qed.

Lemma self_loop_shows_no_cylinder_witness :
  Ex3.link_faces (Ex3.demo_world (fun _ => None))
    (mk_Face (mkPyObj TopoDS_Face 1), mk_Face (mkPyObj TopoDS_Face 1))
    (Ex3.set_center 0 [1; 2; 3]%R Ex3.initial)
  = (None, Ex3.set_center 0 [1; 2; 3]%R Ex3.initial).
Proof.
  apply (self_loop_shows_no_cylinder (Ex3.demo_world (fun _ => None))
           (Ex3.set_center 0 [1; 2; 3]%R Ex3.initial)
           (mk_Face (mkPyObj TopoDS_Face 1)) (mk_Face (mkPyObj TopoDS_Face 1))
           [1; 2; 3]%R); reflexivity.
Defined.

(** ** The loop over the edges of the graph *)

Lemma link_faces_frame W p s :
  Ex3.stdout (snd (Ex3.link_faces W p s)) = Ex3.stdout s /\
  Ex3.face_centers (snd (Ex3.link_faces W p s)) = Ex3.face_centers s /\
  exists cs, Ex3.viewer (snd (Ex3.link_faces W p s)) = Ex3.viewer s ++ cs /\
    Forall (fun c => Ex3.is_cylinder c = true) cs /\
    (List.length cs <= 1)%nat.
Proof.
  assert (exists cs, Ex3.viewer s = Ex3.viewer s ++ cs /\
            Forall (fun c => Ex3.is_cylinder c = true) cs /\
            (List.length cs <= 1)%nat) as Hnil.
  { exists []. rewrite app_nil_r. repeat split; [constructor | cbn; lia]. }
  unfold Ex3.link_faces. destruct p as [fi fj].
  destruct (Ex3.center_of W s fi) as [pt1 | ]; [ | repeat split; exact Hnil].
  destruct (Ex3.center_of W s fj) as [pt2 | ]; [ | repeat split; exact Hnil].
  destruct (Rlt_dec _ _); [ | repeat split; exact Hnil].
  cbn. repeat split. eexists. split; [reflexivity | ].
  split; [repeat constructor | cbn; lia].
Qed.

Lemma center_of_same_centers W s s' f :
  Ex3.face_centers s = Ex3.face_centers s' ->
  Ex3.center_of W s f = Ex3.center_of W s' f.
Proof. unfold Ex3.center_of. intros ->. reflexivity. Qed.

Lemma link_faces_outcome W p s :
  (fst (Ex3.link_faces W p s) = None <->
     is_Some (Ex3.center_of W s (fst p)) /\
     is_Some (Ex3.center_of W s (snd p))) /\
  (fst (Ex3.link_faces W p s) = None \/
   fst (Ex3.link_faces W p s) = Some Ex3.KeyError).
Proof.
  unfold Ex3.link_faces. destruct p as [fi fj]. cbn [fst snd].
  destruct (Ex3.center_of W s fi) as [pt1 | ]; cbn.
  - destruct (Ex3.center_of W s fj) as [pt2 | ]; cbn.
    + destruct (Rlt_dec _ _); cbn; (split; [ | left; reflexivity]);
        (split; [intros _; split; eexists; reflexivity | reflexivity]).
    + split; [ | right; reflexivity].
      split; [discriminate | intros [_ [x Hx]]; discriminate Hx].
  - split; [ | right; reflexivity].
    split; [discriminate | intros [[x Hx] _]; discriminate Hx].
Qed.

Lemma edge_loop_state (W : Ex3.World)
    (es : list (Face * Face)) (s : Ex3.State) :
  (fst (Ex3.for_each (Ex3.link_faces W) es s) = None <->
     forall p, p ∈ es ->
       is_Some (Ex3.center_of W s (fst p)) /\
       is_Some (Ex3.center_of W s (snd p))) /\
  (fst (Ex3.for_each (Ex3.link_faces W) es s) = None \/
   fst (Ex3.for_each (Ex3.link_faces W) es s) = Some Ex3.KeyError) /\
  Ex3.stdout (snd (Ex3.for_each (Ex3.link_faces W) es s)) = Ex3.stdout s /\
  Ex3.face_centers (snd (Ex3.for_each (Ex3.link_faces W) es s))
    = Ex3.face_centers s /\
  exists cs,
    Ex3.viewer (snd (Ex3.for_each (Ex3.link_faces W) es s))
      = Ex3.viewer s ++ cs /\
    Forall (fun c => Ex3.is_cylinder c = true) cs /\
    (List.length cs <= List.length es)%nat.
Proof.
  revert s. induction es as [ | p es IH]; intros s; cbn [Ex3.for_each].
  - cbn. split; [split; [intros _ p Hp; inversion Hp | reflexivity] | ].
    split; [left; reflexivity | ]. repeat split.
    exists []. rewrite app_nil_r. repeat split; [constructor | cbn; lia].
  - destruct (link_faces_outcome W p s) as [Hiff Hor].
    destruct (link_faces_frame W p s) as (Hout & Hfc & cs & Hv & Hcyl & Hlen).
    destruct (Ex3.link_faces W p s) as [[err | ] s1]; cbn [fst snd] in *.
    + split.
      { split; [discriminate | ]. intros H.
        apply Hiff, H. left. }
      split; [destruct Hor as [Hor | Hor]; [discriminate Hor | right; exact Hor] | ].
      split; [exact Hout | ]. split; [exact Hfc | ].
      exists cs. repeat split; [exact Hv | exact Hcyl | cbn; lia].
    + destruct (IH s1) as (IHiff & IHor & IHout & IHfc & cs' & IHv & IHcyl & IHlen).
      split.
      { rewrite IHiff. split.
        - intros H q Hq. apply elem_of_cons in Hq as [-> | Hq].
          + apply Hiff. reflexivity.
          + rewrite !(center_of_same_centers W s s1) by (symmetry; exact Hfc).
            apply H, Hq.
        - intros H q Hq.
          rewrite <- !(center_of_same_centers W s s1) by (symmetry; exact Hfc).
          apply H. right. exact Hq. }
      split; [exact IHor | ].
      split; [rewrite IHout; exact Hout | ].
      split; [rewrite IHfc; exact Hfc | ].
      exists (cs ++ cs'). rewrite IHv, Hv, app_assoc.
      split; [reflexivity | ].
      split; [apply Forall_app; split; assumption | ].
      rewrite length_app. cbn. lia.
Qed.

(** The loop over the edges ends without an exception exactly when the
    centre of both faces of every edge is recorded, and otherwise with a
    [KeyError]. It leaves the dictionary and the output as they were, and
    all it adds to the viewer is cylinders, at most one for each edge. *)
Theorem edge_loop_needs_every_centre (W : Ex3.World)
    (es : list (Face * Face)) (s : Ex3.State) :
  (fst (Ex3.for_each (Ex3.link_faces W) es s) = None <->
     forall p, p ∈ es ->
       is_Some (Ex3.center_of W s (fst p)) /\
       is_Some (Ex3.center_of W s (snd p))) /\
  (fst (Ex3.for_each (Ex3.link_faces W) es s) = None \/
   fst (Ex3.for_each (Ex3.link_faces W) es s) = Some Ex3.KeyError) /\
  Ex3.stdout (snd (Ex3.for_each (Ex3.link_faces W) es s)) = Ex3.stdout s /\
  Ex3.face_centers (snd (Ex3.for_each (Ex3.link_faces W) es s))
    = Ex3.face_centers s /\
  exists cs,
    Ex3.viewer (snd (Ex3.for_each (Ex3.link_faces W) es s))
      = Ex3.viewer s ++ cs /\
    Forall (fun c => Ex3.is_cylinder c = true) cs /\
    (List.length cs <= List.length es)%nat.
Proof.
  destruct (edge_loop_state W es s)
    as (Hiff & Hor & Hout & Hfc & cs & Hview & Hcyl & Hlen).
  split; [exact Hiff | ]. split; [exact Hor | ].
  split; [exact Hout | ]. split; [exact Hfc | ].
  exists cs. split; [exact Hview | ]. split; [exact Hcyl | exact Hlen].
Qed.

(** ** The loop over the faces of the graph *)

Lemma visit_face_cases W f s :
  let s2 := Ex3.call_viewer (Ex3.display_face f 0.8)
              (Ex3.call_viewer
                 (Ex3.display_sphere (Ex3.face_center W f) 0.25) s) in
  match Ex3.Face_bo W f with
  | None => Ex3.visit_face W f s = (Some (Ex3.AttributeError "bo"), s2)
  | Some text =>
      match Ex3.g_index W f with
      | None =>
          Ex3.visit_face W f s
            = (Some Ex3.KeyError,
               Ex3.call_viewer (Ex3.display_text text) s2)
      | Some i =>
          Ex3.visit_face W f s
            = (None,
               Ex3.set_center i (Ex3.face_center W f)
                 (Ex3.call_viewer (Ex3.display_text text) s2))
      end
  end.
Proof.
  unfold Ex3.visit_face, Ex3.face_center. cbn.
  destruct (Ex3.uv_min_point W f) as [umin vmin].
  destruct (Ex3.uv_max_point W f) as [umax vmax]. cbn.
  destruct (Ex3.Face_bo W f) as [text | ]; [ | reflexivity].
  destruct (Ex3.g_index W f) as [i | ]; reflexivity.
Qed.

Lemma center_of_same_index W s f f' :
  Ex3.g_index W f = Ex3.g_index W f' ->
  Ex3.center_of W s f = Ex3.center_of W s f'.
Proof. unfold Ex3.center_of. intros ->. reflexivity. Qed.

Lemma face_loop_state W fs s :
  (forall f, f ∈ fs ->
     is_Some (Ex3.Face_bo W f) /\ is_Some (Ex3.g_index W f)) ->
  let s' := snd (Ex3.for_each (Ex3.visit_face W) fs s) in
  fst (Ex3.for_each (Ex3.visit_face W) fs s) = None /\
  Ex3.stdout s' = Ex3.stdout s /\
  Ex3.viewer s' =
    Ex3.viewer s ++
    (f ← fs; Ex3.shows_face W f (default ""%string (Ex3.Face_bo W f))) /\
  (forall i, (forall f, f ∈ fs -> Ex3.g_index W f <> Some i) ->
     Ex3.face_centers s' !! i = Ex3.face_centers s !! i) /\
  (forall f, f ∈ fs ->
     exists f', f' ∈ fs /\ Ex3.g_index W f' = Ex3.g_index W f /\
       Ex3.center_of W s' f = Some (Ex3.face_center W f')).
Proof.
  revert s. induction fs as [ | f0 fs IH]; intros s Hok; cbn [Ex3.for_each].
  - cbn. rewrite app_nil_r. repeat split. intros f Hf. inversion Hf.
  - destruct (Hok f0) as [[text Hbo] [i0 Hi0]]; [left | ].
    pose proof (visit_face_cases W f0 s) as Hv. cbn zeta in Hv.
    rewrite Hbo, Hi0 in Hv. rewrite Hv. clear Hv.
    set (s1 := Ex3.set_center _ _ _).
    destruct (IH s1) as (IHnone & IHout & IHview & IHkeep & IHrec).
    { intros f Hf. apply Hok. right. exact Hf. }
    split; [exact IHnone | ]. split; [rewrite IHout; reflexivity | ].
    split.
    { rewrite IHview. cbn. rewrite Hbo. cbn.
      rewrite <- !app_assoc. reflexivity. }
    split.
    { intros i Hi. rewrite IHkeep.
      - unfold s1. cbn. apply lookup_insert_ne. intros ->.
        apply (Hi f0); [left | exact Hi0].
      - intros f Hf. apply Hi. right. exact Hf. }
    intros f Hf. apply elem_of_cons in Hf as [-> | Hf].
    + destruct (decide (Some i0 ∈ Ex3.g_index W <$> fs)) as [Hin | Hout].
      * apply list_elem_of_fmap in Hin as (f'' & Hidx & Hf'').
        destruct (IHrec f'' Hf'') as (f' & Hf' & Hsame & Hc).
        exists f'. split; [right; exact Hf' | ].
        split; [congruence | ].
        rewrite <- Hc. apply center_of_same_index. congruence.
      * exists f0. split; [left | ]. split; [reflexivity | ].
        unfold Ex3.center_of. rewrite Hi0. rewrite IHkeep.
        -- unfold s1. cbn. apply lookup_insert_eq.
        -- intros f Hf Hfi. apply Hout. apply list_elem_of_fmap.
           exists f. split; [symmetry; exact Hfi | exact Hf].
    + destruct (IHrec f Hf) as (f' & Hf' & Hsame & Hc).
      exists f'. split; [right; exact Hf' | ]. split; assumption.
Qed.

(** When every face of the loop has a [bo] and an index, and no two of
    them the same index, the loop over the faces raises nothing, shows
    for each face in turn a sphere at its centre, the face and its text,
    and leaves the centre of each face recorded under its index. *)
Theorem face_loop_records_every_centre (W : Ex3.World) (fs : list Face)
    (s : Ex3.State) :
  (forall f, f ∈ fs ->
     is_Some (Ex3.Face_bo W f) /\ is_Some (Ex3.g_index W f)) ->
  (forall f1 f2, f1 ∈ fs -> f2 ∈ fs ->
     Ex3.g_index W f1 = Ex3.g_index W f2 -> f1 = f2) ->
  fst (Ex3.for_each (Ex3.visit_face W) fs s) = None /\
  Ex3.viewer (snd (Ex3.for_each (Ex3.visit_face W) fs s)) =
    Ex3.viewer s ++
    (f ← fs; Ex3.shows_face W f (default ""%string (Ex3.Face_bo W f))) /\
  List.length (Ex3.viewer (snd (Ex3.for_each (Ex3.visit_face W) fs s)))
    = (List.length (Ex3.viewer s) + 3 * List.length fs)%nat /\
  (forall f, f ∈ fs ->
     Ex3.center_of W (snd (Ex3.for_each (Ex3.visit_face W) fs s)) f
       = Some (Ex3.face_center W f)).
Proof.
  intros Hok Hinj.
  destruct (face_loop_state W fs s Hok) as (Hnone & _ & Hview & _ & Hrec).
  split; [exact Hnone | ]. split; [exact Hview | ]. split.
  - rewrite Hview, length_app. f_equal.
    clear. induction fs as [ | f fs IH]; cbn; [reflexivity | ].
    rewrite IH. lia.
  - intros f Hf. destruct (Hrec f Hf) as (f' & Hf' & Hsame & Hc).
    rewrite (Hinj f' f Hf' Hf Hsame) in Hc. exact Hc.
Qed.

Lemma demo_world_faces_ok f :
  f ∈ Ex3.g_nodes (Ex3.demo_world (fun _ => Some "face"%string)) ->
  is_Some (Ex3.Face_bo (Ex3.demo_world (fun _ => Some "face"%string)) f) /\
  is_Some (Ex3.g_index (Ex3.demo_world (fun _ => Some "face"%string)) f).
Proof.
  cbn. intros Hf. split; [eexists; reflexivity | ].
  apply elem_of_cons in Hf as [-> | Hf]; [eexists; reflexivity | ].
  apply elem_of_cons in Hf as [-> | Hf]; [eexists; reflexivity | ].
  inversion Hf.
Qed.

Lemma demo_world_index_inj f1 f2 :
  f1 ∈ Ex3.g_nodes (Ex3.demo_world (fun _ => Some "face"%string)) ->
  f2 ∈ Ex3.g_nodes (Ex3.demo_world (fun _ => Some "face"%string)) ->
  Ex3.demo_index f1 = Ex3.demo_index f2 -> f1 = f2.
Proof.
  cbn. intros H1 H2.
  apply elem_of_cons in H1 as [-> | H1];
    [ | apply elem_of_cons in H1 as [-> | H1]; [ | inversion H1]];
    (apply elem_of_cons in H2 as [-> | H2];
     [ | apply elem_of_cons in H2 as [-> | H2]; [ | inversion H2]]);
    cbn; intros H; first [reflexivity | discriminate H].
Qed.

Lemma face_loop_records_every_centre_witness :
  fst (Ex3.for_each
         (Ex3.visit_face (Ex3.demo_world (fun _ => Some "face"%string)))
         (Ex3.g_nodes (Ex3.demo_world (fun _ => Some "face"%string)))
         Ex3.initial) = None.
Proof.
  apply (face_loop_records_every_centre
           (Ex3.demo_world (fun _ => Some "face"%string))
           (Ex3.g_nodes (Ex3.demo_world (fun _ => Some "face"%string)))
           Ex3.initial).
  - exact demo_world_faces_ok.
  - exact demo_world_index_inj.
Defined.

(** ** The script as a whole *)

Lemma face_loop_never_shows W fs s :
  exists cs,
    Ex3.viewer (snd (Ex3.for_each (Ex3.visit_face W) fs s))
      = Ex3.viewer s ++ cs /\
    Ex3.show ∉ cs.
Proof.
  revert s. induction fs as [ | f fs IH]; intros s; cbn [Ex3.for_each].
  - exists []. cbn. rewrite app_nil_r. split; [reflexivity | ].
    intros H. inversion H.
  - pose proof (visit_face_cases W f s) as Hv. cbn zeta in Hv.
    destruct (Ex3.Face_bo W f) as [text | ].
    + destruct (Ex3.g_index W f) as [i | ]; rewrite Hv.
      * destruct (IH (Ex3.set_center i (Ex3.face_center W f)
                        (Ex3.call_viewer (Ex3.display_text text)
                           (Ex3.call_viewer (Ex3.display_face f 0.8)
                              (Ex3.call_viewer
                                 (Ex3.display_sphere (Ex3.face_center W f)
                                    0.25) s)))))
          as (cs & Hcs & Hno).
        eexists. rewrite Hcs. cbn. rewrite <- !app_assoc.
        split; [reflexivity | ]. cbn.
        intros H. repeat (apply elem_of_cons in H as [H | H];
                          [discriminate H | ]).
        exact (Hno H).
      * cbn. eexists. rewrite <- !app_assoc. split; [reflexivity | ]. cbn.
        intros H. repeat (apply elem_of_cons in H as [H | H];
                          [discriminate H | ]).
        inversion H.
    + rewrite Hv. cbn. eexists. rewrite <- !app_assoc.
      split; [reflexivity | ]. cbn.
      intros H. repeat (apply elem_of_cons in H as [H | H];
                        [discriminate H | ]).
      inversion H.
Qed.

Lemma cylinders_never_show cs :
  Forall (fun c => Ex3.is_cylinder c = true) cs -> Ex3.show ∉ cs.
Proof.
  intros Hall Hin. rewrite Forall_forall in Hall.
  specialize (Hall _ Hin). discriminate Hall.
Qed.

(** The script reaches [v.show()] exactly when it raises nothing: after
    an exception in either loop the viewer was never asked to show, and
    when no exception is raised [fit] and [show] are the last two calls. *)
Theorem script_shows_iff_no_exception (W : Ex3.World) (s : Ex3.State) :
  (fst (Ex3.main W s) = None <-> Ex3.show ∈ Ex3.viewer (snd (Ex3.main W s))) /\
  (fst (Ex3.main W s) = None ->
   exists cs, Ex3.viewer (snd (Ex3.main W s)) = cs ++ [Ex3.fit; Ex3.show]).
Proof.
  unfold Ex3.main.
  set (s0 := Ex3.mk_State _ [] ∅).
  destruct (face_loop_never_shows W (Ex3.g_nodes W) s0) as (cs1 & Hv1 & Hno1).
  destruct (Ex3.for_each (Ex3.visit_face W) (Ex3.g_nodes W) s0)
    as [[err | ] s1]; cbn [fst snd] in *.
  - split; [ | discriminate].
    split; [discriminate | ]. rewrite Hv1. cbn. intros H. destruct (Hno1 H).
  - destruct (edge_loop_state W (Ex3.g_edges W) s1)
      as (_ & _ & _ & _ & cs2 & Hv2 & Hcyl & _).
    destruct (Ex3.for_each (Ex3.link_faces W) (Ex3.g_edges W) s1)
      as [[err | ] s2]; cbn [fst snd] in *.
    + split; [ | discriminate].
      split; [discriminate | ]. rewrite Hv2, Hv1. cbn.
      intros H. apply elem_of_app in H as [H | H]; [destruct (Hno1 H) | ].
      destruct (cylinders_never_show cs2 Hcyl H).
    + split.
      * split; [ | reflexivity]. intros _. cbn.
        rewrite !elem_of_app. right. left.
      * intros _. exists (Ex3.viewer s2). cbn. rewrite <- app_assoc.
        reflexivity.
Qed.

(** On a graph whose faces all have a [bo] and an index, and whose edges
    all join faces of the graph, the script raises nothing: it prints the
    number of nodes and of edges, shows the three items of each face in
    the order of the nodes, then cylinders, at most one for each edge,
    and ends with [fit] and [show]. *)
Theorem script_runs_on_a_graph_of_faces (W : Ex3.World) (s : Ex3.State) :
  (forall f, f ∈ Ex3.g_nodes W ->
     is_Some (Ex3.Face_bo W f) /\ is_Some (Ex3.g_index W f)) ->
  (forall p, p ∈ Ex3.g_edges W ->
     fst p ∈ Ex3.g_nodes W /\ snd p ∈ Ex3.g_nodes W) ->
  fst (Ex3.main W s) = None /\
  Ex3.stdout (snd (Ex3.main W s)) =
    Ex3.stdout s ++
    [("Number of nodes (faces): "%string, List.length (Ex3.g_nodes W));
     ("Number of edges: "%string, List.length (Ex3.g_edges W))] /\
  exists cs,
    Ex3.viewer (snd (Ex3.main W s)) =
      (f ← Ex3.g_nodes W;
       Ex3.shows_face W f (default ""%string (Ex3.Face_bo W f)))
      ++ cs ++ [Ex3.fit; Ex3.show] /\
    Forall (fun c => Ex3.is_cylinder c = true) cs /\
    (List.length cs <= List.length (Ex3.g_edges W))%nat.
Proof.
  intros Hnodes Hedges. unfold Ex3.main.
  set (s0 := Ex3.mk_State _ [] ∅).
  destruct (face_loop_state W (Ex3.g_nodes W) s0 Hnodes)
    as (Hnone & Hout & Hview & _ & Hrec).
  destruct (Ex3.for_each (Ex3.visit_face W) (Ex3.g_nodes W) s0)
    as [err1 s1]; cbn [fst snd] in *. subst err1.
  destruct (edge_loop_state W (Ex3.g_edges W) s1)
    as (Hiff & _ & Hout2 & _ & cs & Hview2 & Hcyl & Hlen).
  assert (fst (Ex3.for_each (Ex3.link_faces W) (Ex3.g_edges W) s1) = None)
    as Hnone2.
  { apply Hiff. intros p Hp. destruct (Hedges p Hp) as [H1 H2].
    destruct (Hrec _ H1) as (f1 & _ & _ & ->).
    destruct (Hrec _ H2) as (f2 & _ & _ & ->).
    split; eexists; reflexivity. }
  destruct (Ex3.for_each (Ex3.link_faces W) (Ex3.g_edges W) s1)
    as [err2 s2]; cbn [fst snd] in *. subst err2. cbn [fst snd].
  split; [reflexivity | ]. split.
  - cbn. rewrite Hout2, Hout. unfold s0. cbn. rewrite <- app_assoc.
    reflexivity.
  - exists cs. split; [ | split; assumption].
    cbn. rewrite Hview2, Hview. unfold s0. cbn.
    rewrite <- !app_assoc. reflexivity.
Qed.

Lemma demo_world_edges_ok p :
  p ∈ Ex3.g_edges (Ex3.demo_world (fun _ => Some "face"%string)) ->
  fst p ∈ Ex3.g_nodes (Ex3.demo_world (fun _ => Some "face"%string)) /\
  snd p ∈ Ex3.g_nodes (Ex3.demo_world (fun _ => Some "face"%string)).
Proof.
  cbn. intros Hp.
  apply elem_of_cons in Hp as [-> | Hp];
    [ | apply elem_of_cons in Hp as [-> | Hp]; [ | inversion Hp]];
    cbn; split; set_solver.
Qed.

Lemma script_runs_on_a_graph_of_faces_witness :
  fst (Ex3.main (Ex3.demo_world (fun _ => Some "face"%string)) Ex3.initial)
    = None.
Proof.
  apply (script_runs_on_a_graph_of_faces
           (Ex3.demo_world (fun _ => Some "face"%string)) Ex3.initial).
  - exact demo_world_faces_ok.
  - exact demo_world_edges_ok.
Defined.

(** When the first face of the graph has no attribute [bo], the script
    ends with an [AttributeError] in the first round of the loop over
    the faces: the two lines are printed, the viewer has been given the
    sphere and the face and nothing else, and no centre is recorded. *)
Theorem script_stops_at_a_face_without_bo (W : Ex3.World) (s : Ex3.State)
    (f : Face) (fs : list Face) :
  Ex3.g_nodes W = f :: fs ->
  Ex3.Face_bo W f = None ->
  Ex3.main W s =
    (Some (Ex3.AttributeError "bo"),
     Ex3.mk_State
       (Ex3.stdout s ++
        [("Number of nodes (faces): "%string, List.length (Ex3.g_nodes W));
         ("Number of edges: "%string, List.length (Ex3.g_edges W))])
       [Ex3.display_sphere (Ex3.face_center W f) 0.25;
        Ex3.display_face f 0.8]
       ∅).
Proof.
  intros Hnodes Hbo.
  assert (forall s0,
            Ex3.for_each (Ex3.visit_face W) (Ex3.g_nodes W) s0 =
              (Some (Ex3.AttributeError "bo"),
               Ex3.call_viewer (Ex3.display_face f 0.8)
                 (Ex3.call_viewer
                    (Ex3.display_sphere (Ex3.face_center W f) 0.25) s0)))
    as Hloop.
  { intros s0. rewrite Hnodes. cbn [Ex3.for_each].
    pose proof (visit_face_cases W f s0) as Hv.
    cbn zeta in Hv. rewrite Hbo in Hv. rewrite Hv. reflexivity. }
  unfold Ex3.main. rewrite Hloop. cbn.
  rewrite <- app_assoc. reflexivity.
Qed.

Lemma script_stops_at_a_face_without_bo_witness :
  fst (Ex3.main (Ex3.demo_world (fun _ => None)) Ex3.initial)
    = Some (Ex3.AttributeError "bo").
Proof.
  rewrite (script_stops_at_a_face_without_bo (Ex3.demo_world (fun _ => None))
             Ex3.initial (mk_Face (mkPyObj TopoDS_Face 1))
             [mk_Face (mkPyObj TopoDS_Face 2)]).
  - reflexivity.
  - reflexivity.
  - reflexivity.
Defined.
